(** * PROXY protocol v2 preamble decoder

    A shallow embedding of the connection handler of the PROXY protocol v2
    demo server ([checkSignature] and steps 1 to 6 of [handle]), and the
    properties of the decoder stated against it.

    Bytes are [Byte.byte]; the values of Go's [uint8] and [uint16]
    expressions are natural numbers in [N] (the shifts, masks and the
    big-endian combination used here never leave their width, which is
    proved below).  Go's run-time panics (index or slice out of range) are
    part of the model: every indexing and slicing operation is partial, and
    a panic is an outcome of its own, so that its absence is a theorem. *)

From Stdlib Require Import String Ascii DecimalString.
From Stdlib Require Import List NArith Bool Arith Lia Strings.Byte.
Import ListNotations.

Open Scope N_scope.

(** ** Go slices, indexing, and the small pieces of the Go library in use *)

Module Go.

(** [s[i]]: panics ([None]) when [i] is out of range. *)
Definition index (s : list byte) (i : nat) : option byte := nth_error s i.

(** [s[lo:hi]] on a slice whose capacity is its length (every slice of
    the program comes from [make([]byte, n)]): panics unless
    [lo <= hi <= len(s)]. *)
Definition slice (s : list byte) (lo hi : nat) : option (list byte) :=
  if (lo <=? hi)%nat && (hi <=? length s)%nat
  then Some (firstn (hi - lo) (skipn lo s))
  else None.

(** [binary.BigEndian.Uint16(b)]:
    [_ = b[1]; return uint16(b[1]) | uint16(b[0])<<8]. *)
Definition Uint16 (b : list byte) : option N :=
  match index b 1, index b 0 with
  | Some b1, Some b0 => Some (N.lor (Byte.to_N b1) (N.shiftl (Byte.to_N b0) 8))
  | _, _ => None
  end.

(** [net.IP] is a byte slice. *)
Definition IP := list byte.

Definition v4InV6Prefix : list byte :=
  [x00; x00; x00; x00; x00; x00; x00; x00; x00; x00; xff; xff].

(** [net.IPv4(a, b, c, d)]: the 16-byte form of an IPv4 address. *)
Definition IPv4 (a b c d : byte) : IP := v4InV6Prefix ++ [a; b; c; d].

Definition bytes_eqb (a b : list byte) : bool :=
  if list_eq_dec Byte.byte_eq_dec a b then true else false.

(** [ip.To4()]: the 4-byte form of an IPv4 address, [nil] otherwise. *)
Definition To4 (ip : IP) : list byte :=
  if (length ip =? 4)%nat then ip
  else if (length ip =? 16)%nat && bytes_eqb (firstn 12 ip) v4InV6Prefix
       then skipn 12 ip
       else [].

Definition decimal (n : N) : string := NilZero.string_of_uint (N.to_uint n).

(** [fmt.Sprintf("%s:%d", ip.String(), port)] on the branch of
    [IP.String] taken by an IPv4 address (dotted decimal); the textual
    form of the other addresses is not modelled ([None]). *)
Definition hostport (ip : IP) (port : N) : option string :=
  match To4 ip with
  | [a; b; c; d] =>
      Some (decimal (Byte.to_N a) ++ "." ++ decimal (Byte.to_N b) ++ "."
            ++ decimal (Byte.to_N c) ++ "." ++ decimal (Byte.to_N d)
            ++ ":" ++ decimal port)%string
  | _ => None
  end.

(** The error values a read can end with. *)
Inductive error : Type :=
| EOF                      (* io.EOF *)
| ErrUnexpectedEOF         (* io.ErrUnexpectedEOF *)
| ErrDeadlineExceeded      (* os.ErrDeadlineExceeded: the read deadline expired *)
| ErrClosed.               (* any other failure of the connection *)

(** A connection, seen from its reader: the bytes that arrive before the
    connection stops delivering, and the error every [Read] returns from
    then on (end of stream, expiry of the read deadline, ...). *)
Record Conn : Type := mkConn { pending : list byte; closing : error }.

(** The error of a read that comes up short after reading [got]:
    [if n > 0 && err == EOF { err = ErrUnexpectedEOF }]. *)
Definition shortRead (got : list byte) (e : error) : error :=
  match got, e with
  | _ :: _, EOF => ErrUnexpectedEOF
  | _, _ => e
  end.

(** [io.ReadFull(raw, buf)] with [len(buf) = n]: reads exactly [n] bytes
    and never more; with fewer than [n] bytes left it consumes them and
    returns the connection's error, [EOF] being reported as
    [ErrUnexpectedEOF] when at least one byte was read.  With [n = 0] it
    reads nothing and succeeds. *)
Definition ReadFull (raw : Conn) (n : nat) : (list byte + error) * Conn :=
  if (n <=? length (pending raw))%nat
  then (inl (firstn n (pending raw)),
        mkConn (skipn n (pending raw)) (closing raw))
  else (inr (shortRead (pending raw) (closing raw)), mkConn [] (closing raw)).

End Go.

Import Go.

(** ** The handler's results *)

(** The four values the handler decodes: [srcIP], [dstIP], [srcPort],
    [dstPort]. *)
Record Endpoints : Type := mkEndpoints {
  srcIP : IP;
  dstIP : IP;
  srcPort : N;
  dstPort : N
}.

(** One constructor per way out of steps 1 to 6 of [handle]: each [return]
    (named after the line it logs, with the values logged), reaching step 7
    with the endpoints, and a run-time panic. *)
Inductive Outcome : Type :=
| ErrorReadingInitialHeader (e : error)   (* "Error reading initial header: %v" *)
| NoValidSignature                        (* "No valid Proxy Protocol v2 signature detected" *)
| UnsupportedVersion (version : N)        (* "Unsupported Proxy Protocol version: %d" *)
| CommandNotProxy (cmd : N)               (* "Command is %d, not PROXY; ignoring." *)
| ErrorReadingAddressBlock (err : error)  (* "Error reading address block: %v" *)
| NotEnoughDataIPv4                       (* "Not enough data for IPv4 address block." *)
| NotEnoughDataIPv6                       (* "Not enough data for IPv6 address block." *)
| UnrecognizedAddressFamily (family : N)  (* "Unrecognized address family: 0x%X" *)
| GotConnection (ep : Endpoints)          (* "Got Proxy Protocol v2 connection from ..." *)
| Panicked.

(** ** A monad for the handler: the connection is threaded through, and a
    computation either goes on with a value or leaves the function. *)

Definition M (A : Type) : Type := Conn -> (A + Outcome) * Conn.

Definition ret {A} (a : A) : M A := fun raw => (inl a, raw).

Definition bind {A B} (m : M A) (k : A -> M B) : M B :=
  fun raw =>
    match m raw with
    | (inl a, raw') => k a raw'
    | (inr o, raw') => (inr o, raw')
    end.

(** [log...; return]: the handler is left, with what was logged. *)
Definition leave {A} (o : Outcome) : M A := fun raw => (inr o, raw).

(** A partial operation of Go: [None] is a panic. *)
Definition orPanic {A} (x : option A) : M A :=
  match x with
  | Some a => ret a
  | None => leave Panicked
  end.

Definition readFull (n : nat) : M (list byte + error) :=
  fun raw => let '(r, raw') := ReadFull raw n in (inl r, raw').

Declare Scope handler_scope.
Delimit Scope handler_scope with handler.
Notation "x <- m ;; k" := (bind m (fun x => k))
  (at level 61, m at next level, right associativity) : handler_scope.
Notation "'when' c 'return' o ;; k" := (if c then leave o else k)
  (at level 61, c at next level, o at next level, right associativity) : handler_scope.

(** ** The program *)

Definition ppv2Signature : list byte :=
  [x0d; x0a; x0d; x0a; x00; x0d; x0a; x51; x52; x4f; x54; x0a].

(** The loop of [checkSignature], with [n] iterations left from index [i]. *)
Fixpoint checkSignature_from (sig : list byte) (n i : nat) : option bool :=
  match n with
  | O => Some true
  | S n' =>
      match index sig i, index ppv2Signature i with
      | Some s, Some p =>
          if negb (Byte.eqb s p) then Some false
          else checkSignature_from sig n' (S i)
      | _, _ => None
      end
  end.

Definition checkSignature (sig : list byte) : option bool :=
  if negb (length sig =? length ppv2Signature)%nat then Some false
  else checkSignature_from sig (length ppv2Signature) 0.

Open Scope handler_scope.

(** Step 6 for [family = 0x1]. *)
Definition parseIPv4 (addrBlock : list byte) : M Endpoints :=
  when (length addrBlock <? 12)%nat return NotEnoughDataIPv4 ;;
  s0 <- orPanic (index addrBlock 0) ;;
  s1 <- orPanic (index addrBlock 1) ;;
  s2 <- orPanic (index addrBlock 2) ;;
  s3 <- orPanic (index addrBlock 3) ;;
  d0 <- orPanic (index addrBlock 4) ;;
  d1 <- orPanic (index addrBlock 5) ;;
  d2 <- orPanic (index addrBlock 6) ;;
  d3 <- orPanic (index addrBlock 7) ;;
  sp <- orPanic (slice addrBlock 8 10) ;;
  srcPort <- orPanic (Uint16 sp) ;;
  dp <- orPanic (slice addrBlock 10 12) ;;
  dstPort <- orPanic (Uint16 dp) ;;
  ret (mkEndpoints (IPv4 s0 s1 s2 s3) (IPv4 d0 d1 d2 d3) srcPort dstPort).

(** Step 6 for [family = 0x2]. *)
Definition parseIPv6 (addrBlock : list byte) : M Endpoints :=
  when (length addrBlock <? 36)%nat return NotEnoughDataIPv6 ;;
  srcIP <- orPanic (slice addrBlock 0 16) ;;
  dstIP <- orPanic (slice addrBlock 16 32) ;;
  sp <- orPanic (slice addrBlock 32 34) ;;
  srcPort <- orPanic (Uint16 sp) ;;
  dp <- orPanic (slice addrBlock 34 36) ;;
  dstPort <- orPanic (Uint16 dp) ;;
  ret (mkEndpoints srcIP dstIP srcPort dstPort).

(** Steps 1 to 6 of [handle]. *)
Definition handle_steps : M Endpoints :=
  (* 1. Read the first 16 bytes for the PPv2 header *)
  r <- readFull 16 ;;
  match r with
  | inr e => leave (ErrorReadingInitialHeader e)
  | inl header =>
      (* 2. Check the 12-byte signature *)
      sig <- orPanic (slice header 0 12) ;;
      ok <- orPanic (checkSignature sig) ;;
      when negb ok return NoValidSignature ;;
      (* 3. Parse version/command byte and family/protocol byte *)
      verCmd <- orPanic (index header 12) ;;
      famProto <- orPanic (index header 13) ;;
      let version := N.shiftr (Byte.to_N verCmd) 4 in
      when negb (version =? 2) return (UnsupportedVersion version) ;;
      let cmd := N.land (Byte.to_N verCmd) 0x0F in
      when negb (cmd =? 0x1) return (CommandNotProxy cmd) ;;
      (* 4. Extract address length *)
      lenBytes <- orPanic (slice header 14 16) ;;
      addrLen <- orPanic (Uint16 lenBytes) ;;
      (* 5. Read the address block *)
      r <- readFull (N.to_nat addrLen) ;;
      match r with
      | inr err => leave (ErrorReadingAddressBlock err)
      | inl addrBlock =>
          (* 6. Parse IP addresses based on famProto *)
          let family := N.shiftr (Byte.to_N famProto) 4 in
          match family with
          | 0x1 => parseIPv4 addrBlock
          | 0x2 => parseIPv6 addrBlock
          | _ => leave (UnrecognizedAddressFamily family)
          end
      end
  end.

Close Scope handler_scope.

(** The way out of steps 1 to 6 as an [Outcome]: falling through to step 7
    is [GotConnection]. *)
Definition finish (r : (Endpoints + Outcome) * Conn) : Outcome * Conn :=
  match r with
  | (inl ep, raw') => (GotConnection ep, raw')
  | (inr o, raw') => (o, raw')
  end.

(** [handle], up to the point where the rest of the connection is the
    application's: the way the handler left steps 1 to 6, and the
    connection as it is then. *)
Definition handle (raw : Conn) : Outcome * Conn := finish (handle_steps raw).

(** ** The end-to-end scenario *)

Definition scenario : list byte :=
  ppv2Signature
  ++ [x21; x11; x00; x0c]
  ++ [x7b; x7b; x7b; x7b] ++ [x08; x08; x08; x08] ++ [x1f; x90] ++ [x00; x50].

(** ** Vocabulary of the statements *)

(** The fields of the fixed header, as the handler computes them:
    [verCmd >> 4], [verCmd & 0x0F], [famProto >> 4], and the big-endian
    number of the two length bytes (see [addressLength_Uint16]). *)
Definition version (verCmd : byte) : N := N.shiftr (Byte.to_N verCmd) 4.
Definition command (verCmd : byte) : N := N.land (Byte.to_N verCmd) 15.
Definition family (famProto : byte) : N := N.shiftr (Byte.to_N famProto) 4.
Definition addressLength (l0 l1 : byte) : nat :=
  N.to_nat (256 * Byte.to_N l0 + Byte.to_N l1).

(** Sixteen bytes: twelve signature bytes and the four bytes after them. *)
Definition fixedHeader (sig : list byte) (verCmd famProto l0 l1 : byte) : list byte :=
  sig ++ [verCmd; famProto; l0; l1].

(** The big-endian 16-bit number at offset [i] of a block. *)
Definition u16At (b : list byte) (i : nat) : N :=
  256 * Byte.to_N (nth i b x00) + Byte.to_N (nth (S i) b x00).

(** What step 6 makes of a block of family IPv4, and of family IPv6 (see
    [parseIPv4_long] and [parseIPv6_long]). *)
Definition endpointsIPv4 (b : list byte) : Endpoints :=
  mkEndpoints (v4InV6Prefix ++ firstn 4 b) (v4InV6Prefix ++ firstn 4 (skipn 4 b))
              (u16At b 8) (u16At b 10).

Definition endpointsIPv6 (b : list byte) : Endpoints :=
  mkEndpoints (firstn 16 b) (firstn 16 (skipn 16 b)) (u16At b 32) (u16At b 34).

(** Steps 5 and 6 of [handle_steps], as they run once the fixed header is
    accepted (see [handle_header]). *)
Definition readBlock (famProto : byte) (addrLen : N) (raw : Conn) : Outcome * Conn :=
  match ReadFull raw (N.to_nat addrLen) with
  | (inr err, raw') => (ErrorReadingAddressBlock err, raw')
  | (inl addrBlock, raw') =>
      let family := N.shiftr (Byte.to_N famProto) 4 in
      finish (match family with
              | 0x1 => parseIPv4 addrBlock
              | 0x2 => parseIPv6 addrBlock
              | _ => leave (UnrecognizedAddressFamily family)
              end raw')
  end.

(** Every path through steps 1 to 6, by the shape of the connection's
    content: [Decodes raw o raw'] relates a connection, the way out, and the
    connection afterwards.  It is proved to be what [handle] computes
    ([handle_Decodes]). *)
Inductive Decodes : Conn -> Outcome -> Conn -> Prop :=
| D_short_header got c :
    (length got < 16)%nat ->
    Decodes (mkConn got c)
            (ErrorReadingInitialHeader (shortRead got c)) (mkConn [] c)
| D_signature sig verCmd famProto l0 l1 rest c :
    length sig = 12%nat -> sig <> ppv2Signature ->
    Decodes (mkConn (fixedHeader sig verCmd famProto l0 l1 ++ rest) c)
            NoValidSignature (mkConn rest c)
| D_version verCmd famProto l0 l1 rest c :
    version verCmd <> 2 ->
    Decodes (mkConn (fixedHeader ppv2Signature verCmd famProto l0 l1 ++ rest) c)
            (UnsupportedVersion (version verCmd)) (mkConn rest c)
| D_command verCmd famProto l0 l1 rest c :
    version verCmd = 2 -> command verCmd <> 1 ->
    Decodes (mkConn (fixedHeader ppv2Signature verCmd famProto l0 l1 ++ rest) c)
            (CommandNotProxy (command verCmd)) (mkConn rest c)
| D_short_block verCmd famProto l0 l1 got c :
    version verCmd = 2 -> command verCmd = 1 ->
    (length got < addressLength l0 l1)%nat ->
    Decodes (mkConn (fixedHeader ppv2Signature verCmd famProto l0 l1 ++ got) c)
            (ErrorReadingAddressBlock (shortRead got c)) (mkConn [] c)
| D_short_IPv4 verCmd famProto l0 l1 block payload c :
    version verCmd = 2 -> command verCmd = 1 ->
    length block = addressLength l0 l1 ->
    family famProto = 1 -> (length block < 12)%nat ->
    Decodes (mkConn (fixedHeader ppv2Signature verCmd famProto l0 l1 ++ block ++ payload) c)
            NotEnoughDataIPv4 (mkConn payload c)
| D_IPv4 verCmd famProto l0 l1 block payload c :
    version verCmd = 2 -> command verCmd = 1 ->
    length block = addressLength l0 l1 ->
    family famProto = 1 -> (12 <= length block)%nat ->
    Decodes (mkConn (fixedHeader ppv2Signature verCmd famProto l0 l1 ++ block ++ payload) c)
            (GotConnection (endpointsIPv4 block)) (mkConn payload c)
| D_short_IPv6 verCmd famProto l0 l1 block payload c :
    version verCmd = 2 -> command verCmd = 1 ->
    length block = addressLength l0 l1 ->
    family famProto = 2 -> (length block < 36)%nat ->
    Decodes (mkConn (fixedHeader ppv2Signature verCmd famProto l0 l1 ++ block ++ payload) c)
            NotEnoughDataIPv6 (mkConn payload c)
| D_IPv6 verCmd famProto l0 l1 block payload c :
    version verCmd = 2 -> command verCmd = 1 ->
    length block = addressLength l0 l1 ->
    family famProto = 2 -> (36 <= length block)%nat ->
    Decodes (mkConn (fixedHeader ppv2Signature verCmd famProto l0 l1 ++ block ++ payload) c)
            (GotConnection (endpointsIPv6 block)) (mkConn payload c)
| D_family verCmd famProto l0 l1 block payload c :
    version verCmd = 2 -> command verCmd = 1 ->
    length block = addressLength l0 l1 ->
    family famProto <> 1 -> family famProto <> 2 ->
    Decodes (mkConn (fixedHeader ppv2Signature verCmd famProto l0 l1 ++ block ++ payload) c)
            (UnrecognizedAddressFamily (family famProto)) (mkConn payload c).

(** The wire form of a connection's endpoints, after the layout of the
    header and of the address block given at the head of the source file
    (TCP over IPv4 is [0x11], over IPv6 [0x21]; 12 and 36 address bytes):
    [byteOf] is Go's conversion [byte(v)] of a value below 256, [putUint16]
    is [binary.BigEndian.PutUint16]. *)
Definition byteOf (n : N) : byte :=
  match Byte.of_N n with
  | Some b => b
  | None => x00
  end.

Definition putUint16 (v : N) : list byte := [byteOf (v / 256); byteOf (v mod 256)].

Definition encodeIPv4 (src dst : list byte) (sport dport : N) : list byte :=
  fixedHeader ppv2Signature x21 x11 x00 x0c
  ++ (src ++ dst ++ putUint16 sport ++ putUint16 dport).

Definition encodeIPv6 (src dst : list byte) (sport dport : N) : list byte :=
  fixedHeader ppv2Signature x21 x21 x00 x24
  ++ (src ++ dst ++ putUint16 sport ++ putUint16 dport).

(** Bit [k] of a byte flipped, and bit [k] of byte [i] of a slice. *)
Definition flipBit (b : byte) (k : N) : byte :=
  byteOf (N.lxor (Byte.to_N b) (2 ^ k)).

Fixpoint flipAt (s : list byte) (i : nat) (k : N) : list byte :=
  match s, i with
  | [], _ => []
  | b :: s', O => flipBit b k :: s'
  | b :: s', S i' => b :: flipAt s' i' k
  end.

(** ** Step 7 of the handler, and the deferred [Close] *)

(** [raw.Read(buf)] with [len(buf) = k], on a connection some of whose
    pending bytes have [arrived] when the call returns: with nothing
    pending it reads nothing and returns the connection's error; otherwise
    it waits for a first byte and returns what has arrived, at most [k]
    bytes, and no error. *)
Definition Read (raw : Conn) (k arrived : nat) : (nat * option error) * Conn :=
  match pending raw with
  | [] => ((O, Some (closing raw)), raw)
  | _ :: _ =>
      let n := Nat.min k (Nat.min (Nat.max 1 arrived) (length (pending raw))) in
      ((n, None), mkConn (skipn n (pending raw)) (closing raw))
  end.

(** ["Hello from server!\n"]. *)
Definition hello : list byte := list_byte_of_string "Hello from server!" ++ [x0a].

(** How [handle] ends: it left in steps 1 to 6, it logged "Read error: %v",
    or it logged "Received %d bytes from %s" and wrote the greeting. *)
Inductive Reply : Type :=
| Dropped (o : Outcome)
| ReadError (ep : Endpoints) (err : error)
| Received (ep : Endpoints) (n : nat).

(** The connection when [handle] has returned: what is left to read, what
    was handed to [raw.Write], and whether [raw.Close] has run. *)
Record Wire : Type := mkWire { conn : Conn; sent : list byte; closed : bool }.

(** The whole of [handle]: steps 1 to 6, then one [Read] of at most 1024
    bytes, whose error is fatal unless it is [io.EOF], then the greeting;
    [defer raw.Close()] runs on every way out. *)
Definition handleConn (raw : Conn) (arrived : nat) : Reply * Wire :=
  match handle raw with
  | (GotConnection ep, raw1) =>
      let '((n, err), raw2) := Read raw1 1024 arrived in
      match err with
      | Some EOF | None => (Received ep n, mkWire raw2 hello true)
      | Some e => (ReadError ep e, mkWire raw2 [] true)
      end
  | (o, raw1) => (Dropped o, mkWire raw1 [] true)
  end.

(** ** The read deadline *)












(** ** Bytes and 16-bit values *)

Lemma to_N_byte (b : byte) : Byte.to_N b < 256.
Proof. pose proof (Byte.to_N_bounded b). lia. Qed.

(** The shift and the mask of a byte give a nibble. *)
Lemma nibble_range (b : byte) :
  N.shiftr (Byte.to_N b) 4 < 16 /\ N.land (Byte.to_N b) 15 < 16.
Proof.
  pose proof (to_N_byte b) as H. split.
  - rewrite N.shiftr_div_pow2. change (2 ^ 4) with 16.
    apply N.Div0.div_lt_upper_bound. lia.
  - change 15 with (N.ones 4). rewrite N.land_ones. change (2 ^ 4) with 16.
    apply N.mod_lt. lia.
Qed.

(** The big-endian combination of two bytes is the number they denote. *)
Lemma lor_shiftl_8 (hi lo : N) : lo < 256 -> N.lor lo (N.shiftl hi 8) = 256 * hi + lo.
Proof.
  intros Hlo.
  assert (Hdisj : N.land lo (N.shiftl hi 8) = 0).
  { apply N.bits_inj_0. intros n. rewrite N.land_spec.
    destruct (N.lt_ge_cases n 8) as [Hn | Hn].
    - rewrite (N.shiftl_spec_low hi 8 n Hn). apply andb_false_r.
    - replace (N.testbit lo n) with false; [reflexivity|].
      symmetry. destruct (N.eq_dec lo 0) as [-> | Hz]; [apply N.bits_0|].
      apply N.bits_above_log2.
      apply N.lt_le_trans with 8; [|exact Hn].
      apply N.log2_lt_pow2; [lia | exact Hlo]. }
  rewrite <- N.lxor_lor by exact Hdisj.
  rewrite <- N.add_nocarry_lxor by exact Hdisj.
  rewrite N.shiftl_mul_pow2. change (2 ^ 8) with 256. lia.
Qed.

Lemma Uint16_pair (b0 b1 : byte) (tl : list byte) :
  Uint16 (b0 :: b1 :: tl) = Some (256 * Byte.to_N b0 + Byte.to_N b1).
Proof.
  unfold Uint16, index. cbn [nth_error].
  rewrite lor_shiftl_8 by apply to_N_byte. reflexivity.
Qed.

(** The address length of the statements is the one the handler extracts. *)
Lemma addressLength_Uint16 (l0 l1 : byte) :
  option_map N.to_nat (Uint16 [l0; l1]) = Some (addressLength l0 l1).
Proof. rewrite Uint16_pair. reflexivity. Qed.

(** [Uint16] stays within 16 bits. *)
Lemma Uint16_range (b : list byte) (n : N) : Uint16 b = Some n -> n < 65536.
Proof.
  destruct b as [|b0 [|b1 tl]]; try discriminate.
  rewrite Uint16_pair. intros H.
  assert (E : 256 * Byte.to_N b0 + Byte.to_N b1 = n) by congruence.
  pose proof (to_N_byte b0). pose proof (to_N_byte b1). lia.
Qed.

(** ** [checkSignature] *)

Lemma bytes_eqb_eq (a b : list byte) : bytes_eqb a b = true <-> a = b.
Proof.
  unfold bytes_eqb. destruct (list_eq_dec Byte.byte_eq_dec a b); split; congruence.
Qed.

Lemma bytes_eqb_cons (x y : byte) (a b : list byte) :
  bytes_eqb (x :: a) (y :: b) = Byte.eqb x y && bytes_eqb a b.
Proof.
  destruct (Byte.eqb x y) eqn:Exy; simpl.
  - apply Byte.byte_dec_bl in Exy. subst y.
    destruct (bytes_eqb a b) eqn:Eab.
    + apply bytes_eqb_eq in Eab. subst b. apply bytes_eqb_eq. reflexivity.
    + destruct (bytes_eqb (x :: a) (x :: b)) eqn:E; [|reflexivity].
      apply bytes_eqb_eq in E. injection E as ->.
      rewrite (proj2 (bytes_eqb_eq b b) eq_refl) in Eab. discriminate.
  - apply Byte.eqb_false in Exy.
    destruct (bytes_eqb (x :: a) (y :: b)) eqn:E; [|reflexivity].
    apply bytes_eqb_eq in E. congruence.
Qed.

Lemma skipn_index (s : list byte) (i : nat) (x : byte) :
  index s i = Some x -> skipn i s = x :: skipn (S i) s.
Proof.
  unfold index. revert i. induction s as [|y s IH]; intros [|i] H; simpl in *;
    try discriminate.
  - congruence.
  - apply IH. exact H.
Qed.

(** The loop compares the remaining positions one by one and never indexes
    out of range. *)
Lemma checkSignature_from_spec (sig : list byte) (n i : nat) :
  length sig = length ppv2Signature ->
  (i + n = length ppv2Signature)%nat ->
  checkSignature_from sig n i
  = Some (bytes_eqb (skipn i sig) (skipn i ppv2Signature)).
Proof.
  intros Hlen. revert i. induction n as [|n IH]; intros i Hi.
  - rewrite Nat.add_0_r in Hi. subst i. cbn [checkSignature_from].
    rewrite (skipn_all2 sig), (skipn_all2 ppv2Signature) by lia. reflexivity.
  - cbn [checkSignature_from].
    destruct (index sig i) as [s|] eqn:Es.
    2:{ apply nth_error_None in Es. lia. }
    destruct (index ppv2Signature i) as [p|] eqn:Ep.
    2:{ apply nth_error_None in Ep. lia. }
    rewrite (skipn_index _ _ _ Es), (skipn_index _ _ _ Ep), bytes_eqb_cons.
    destruct (Byte.eqb s p); simpl; [|reflexivity].
    apply IH. lia.
Qed.

Lemma checkSignature_spec (sig : list byte) :
  checkSignature sig = Some (bytes_eqb sig ppv2Signature).
Proof.
  unfold checkSignature.
  destruct (length sig =? length ppv2Signature)%nat eqn:E; cbn [negb].
  - apply Nat.eqb_eq in E. apply (checkSignature_from_spec sig _ 0 E). reflexivity.
  - apply Nat.eqb_neq in E. f_equal. symmetry.
    destruct (bytes_eqb sig ppv2Signature) eqn:B; [|reflexivity].
    apply bytes_eqb_eq in B. subst sig. contradiction E. reflexivity.
Qed.

(** ** [ReadFull] *)

(** With enough bytes pending, exactly [n] are taken and the rest stays. *)
Lemma ReadFull_enough (buf rest : list byte) (c : error) (n : nat) :
  length buf = n ->
  ReadFull (mkConn (buf ++ rest) c) n = (inl buf, mkConn rest c).
Proof.
  intros <-. unfold ReadFull. cbn [pending closing].
  rewrite length_app.
  replace (length buf <=? length buf + length rest)%nat with true
    by (symmetry; apply Nat.leb_le; lia).
  rewrite firstn_app, Nat.sub_diag, firstn_all, skipn_app, Nat.sub_diag, skipn_all.
  cbn [firstn skipn]. rewrite app_nil_r. reflexivity.
Qed.

Lemma ReadFull_short (got : list byte) (c : error) (n : nat) :
  (length got < n)%nat ->
  ReadFull (mkConn got c) n = (inr (shortRead got c), mkConn [] c).
Proof.
  intros H. unfold ReadFull. cbn [pending closing].
  replace (n <=? length got)%nat with false
    by (symmetry; apply Nat.leb_gt; exact H).
  reflexivity.
Qed.

(** A list of known length is the list of its elements. *)
Ltac explode l H :=
  lazymatch type of H with
  | length l = O => destruct l; [clear H | discriminate H]
  | length l = S _ =>
      let x := fresh "b" in
      destruct l as [|x l]; [discriminate H | cbn [length] in H; apply Nat.succ_inj in H;
                                              explode l H]
  end.

(** ** [handle], step by step *)

Lemma handle_short_header (got : list byte) (c : error) :
  (length got < 16)%nat ->
  handle (mkConn got c) = (ErrorReadingInitialHeader (shortRead got c), mkConn [] c).
Proof.
  intros H. unfold handle, handle_steps, bind, readFull.
  rewrite (ReadFull_short got c 16 H). reflexivity.
Qed.

(** Steps 1 to 4 on a connection that delivers a whole fixed header. *)
Lemma handle_header (sig : list byte) (verCmd famProto l0 l1 : byte)
      (rest : list byte) (c : error) :
  length sig = 12%nat ->
  handle (mkConn (sig ++ verCmd :: famProto :: l0 :: l1 :: rest) c)
  = if negb (bytes_eqb sig ppv2Signature)
    then (NoValidSignature, mkConn rest c)
    else if negb (N.shiftr (Byte.to_N verCmd) 4 =? 2)
    then (UnsupportedVersion (N.shiftr (Byte.to_N verCmd) 4), mkConn rest c)
    else if negb (N.land (Byte.to_N verCmd) 15 =? 1)
    then (CommandNotProxy (N.land (Byte.to_N verCmd) 15), mkConn rest c)
    else readBlock famProto (256 * Byte.to_N l0 + Byte.to_N l1) (mkConn rest c).
Proof.
  intros Hsig. unfold handle, handle_steps, bind, readFull.
  replace (sig ++ verCmd :: famProto :: l0 :: l1 :: rest)
    with ((sig ++ [verCmd; famProto; l0; l1]) ++ rest)
    by (rewrite <- app_assoc; reflexivity).
  rewrite ReadFull_enough by (rewrite length_app, Hsig; reflexivity).
  explode sig Hsig.
  cbn [app slice length Nat.leb andb Nat.sub skipn firstn orPanic ret].
  rewrite checkSignature_spec. cbn [orPanic ret].
  destruct (bytes_eqb _ ppv2Signature); cbn [negb]; [|reflexivity].
  cbn [index nth_error orPanic ret].
  destruct (N.shiftr (Byte.to_N verCmd) 4 =? 2); cbn [negb]; [|reflexivity].
  destruct (N.land (Byte.to_N verCmd) 15 =? 1); cbn [negb]; [|reflexivity].
  rewrite Uint16_pair. cbn [orPanic ret].
  unfold readBlock.
  destruct (ReadFull _ _) as [[addrBlock | err] raw']; reflexivity.
Qed.

(** Step 6, IPv4: twelve bytes are parsed, whatever follows them in the
    block is ignored. *)
Lemma parseIPv4_block (s0 s1 s2 s3 d0 d1 d2 d3 sp0 sp1 dp0 dp1 : byte)
      (surplus : list byte) (raw : Conn) :
  parseIPv4 (s0 :: s1 :: s2 :: s3 :: d0 :: d1 :: d2 :: d3
             :: sp0 :: sp1 :: dp0 :: dp1 :: surplus) raw
  = (inl (mkEndpoints (IPv4 s0 s1 s2 s3) (IPv4 d0 d1 d2 d3)
                      (256 * Byte.to_N sp0 + Byte.to_N sp1)
                      (256 * Byte.to_N dp0 + Byte.to_N dp1)), raw).
Proof.
  unfold parseIPv4, bind.
  cbn [length Nat.ltb Nat.leb index nth_error orPanic ret
       slice andb Nat.sub skipn firstn].
  rewrite !Uint16_pair. reflexivity.
Qed.

Lemma parseIPv4_short (addrBlock : list byte) (raw : Conn) :
  (length addrBlock < 12)%nat ->
  parseIPv4 addrBlock raw = (inr NotEnoughDataIPv4, raw).
Proof.
  intros H. unfold parseIPv4.
  replace (length addrBlock <? 12)%nat with true
    by (symmetry; apply Nat.ltb_lt; exact H).
  reflexivity.
Qed.

(** Step 6, IPv6. *)
Lemma parseIPv6_block (src dst : list byte) (sp0 sp1 dp0 dp1 : byte)
      (surplus : list byte) (raw : Conn) :
  length src = 16%nat -> length dst = 16%nat ->
  parseIPv6 (src ++ dst ++ sp0 :: sp1 :: dp0 :: dp1 :: surplus) raw
  = (inl (mkEndpoints src dst
                      (256 * Byte.to_N sp0 + Byte.to_N sp1)
                      (256 * Byte.to_N dp0 + Byte.to_N dp1)), raw).
Proof.
  intros Hs Hd. explode src Hs. explode dst Hd.
  unfold parseIPv6, bind.
  cbn [app length Nat.ltb Nat.leb orPanic ret slice andb Nat.sub skipn firstn].
  rewrite !Uint16_pair. reflexivity.
Qed.

Lemma parseIPv6_short (addrBlock : list byte) (raw : Conn) :
  (length addrBlock < 36)%nat ->
  parseIPv6 addrBlock raw = (inr NotEnoughDataIPv6, raw).
Proof.
  intros H. unfold parseIPv6.
  replace (length addrBlock <? 36)%nat with true
    by (symmetry; apply Nat.ltb_lt; exact H).
  reflexivity.
Qed.

(** A list at least [n] long starts with [n] elements. *)
Lemma split_at (n : nat) (l : list byte) :
  (n <= length l)%nat ->
  exists front back, l = front ++ back /\ length front = n.
Proof.
  intros H. exists (firstn n l), (skipn n l). split.
  - symmetry. apply firstn_skipn.
  - apply firstn_length_le. exact H.
Qed.

(** Step 5 on a connection that stops before the block is complete. *)
Lemma readBlock_short (famProto : byte) (addrLen : N) (got : list byte) (c : error) :
  (length got < N.to_nat addrLen)%nat ->
  readBlock famProto addrLen (mkConn got c)
  = (ErrorReadingAddressBlock (shortRead got c), mkConn [] c).
Proof.
  intros H. unfold readBlock. rewrite (ReadFull_short _ _ _ H). reflexivity.
Qed.

(** Step 5 on a connection that delivers the block: exactly the block is
    taken. *)
Lemma readBlock_full (famProto : byte) (addrLen : N) (addrBlock payload : list byte)
      (c : error) :
  length addrBlock = N.to_nat addrLen ->
  readBlock famProto addrLen (mkConn (addrBlock ++ payload) c)
  = finish (match N.shiftr (Byte.to_N famProto) 4 with
            | 0x1 => parseIPv4 addrBlock
            | 0x2 => parseIPv6 addrBlock
            | _ => leave (UnrecognizedAddressFamily (N.shiftr (Byte.to_N famProto) 4))
            end (mkConn payload c)).
Proof.
  intros H. unfold readBlock. rewrite (ReadFull_enough _ _ _ _ H). reflexivity.
Qed.

(** ** The paths of the handler *)

Lemma handle_fixedHeader (sig : list byte) (verCmd famProto l0 l1 : byte)
      (rest : list byte) (c : error) :
  length sig = 12%nat ->
  handle (mkConn (fixedHeader sig verCmd famProto l0 l1 ++ rest) c)
  = if negb (bytes_eqb sig ppv2Signature)
    then (NoValidSignature, mkConn rest c)
    else if negb (version verCmd =? 2)
    then (UnsupportedVersion (version verCmd), mkConn rest c)
    else if negb (command verCmd =? 1)
    then (CommandNotProxy (command verCmd), mkConn rest c)
    else readBlock famProto (256 * Byte.to_N l0 + Byte.to_N l1) (mkConn rest c).
Proof.
  intros Hsig. unfold fixedHeader. rewrite <- app_assoc.
  apply (handle_header sig verCmd famProto l0 l1 rest c Hsig).
Qed.

Lemma handle_accepted (verCmd famProto l0 l1 : byte) (rest : list byte) (c : error) :
  version verCmd = 2 -> command verCmd = 1 ->
  handle (mkConn (fixedHeader ppv2Signature verCmd famProto l0 l1 ++ rest) c)
  = readBlock famProto (256 * Byte.to_N l0 + Byte.to_N l1) (mkConn rest c).
Proof.
  intros Hv Hc. rewrite handle_fixedHeader by reflexivity.
  rewrite Hv, Hc. reflexivity.
Qed.

Lemma endpointsIPv4_block (s0 s1 s2 s3 d0 d1 d2 d3 sp0 sp1 dp0 dp1 : byte)
      (surplus : list byte) :
  endpointsIPv4 (s0 :: s1 :: s2 :: s3 :: d0 :: d1 :: d2 :: d3
                 :: sp0 :: sp1 :: dp0 :: dp1 :: surplus)
  = mkEndpoints (IPv4 s0 s1 s2 s3) (IPv4 d0 d1 d2 d3)
                (256 * Byte.to_N sp0 + Byte.to_N sp1)
                (256 * Byte.to_N dp0 + Byte.to_N dp1).
Proof. reflexivity. Qed.

Lemma parseIPv4_long (addrBlock : list byte) (raw : Conn) :
  (12 <= length addrBlock)%nat ->
  parseIPv4 addrBlock raw = (inl (endpointsIPv4 addrBlock), raw).
Proof.
  intros H. destruct (split_at 12 addrBlock H) as (front & surplus & -> & Hf).
  explode front Hf. cbn [app].
  rewrite parseIPv4_block, endpointsIPv4_block. reflexivity.
Qed.

Lemma parseIPv6_long (addrBlock : list byte) (raw : Conn) :
  (36 <= length addrBlock)%nat ->
  parseIPv6 addrBlock raw = (inl (endpointsIPv6 addrBlock), raw).
Proof.
  intros H. destruct (split_at 36 addrBlock H) as (front & surplus & -> & Hf).
  destruct (split_at 16 front ltac:(lia)) as (src & back & -> & Hs).
  rewrite length_app in Hf.
  destruct (split_at 16 back ltac:(lia)) as (dst & ports & -> & Hd).
  rewrite length_app in Hf.
  assert (Hp : length ports = 4%nat) by lia.
  explode ports Hp.
  rewrite <- !app_assoc. cbn [app].
  rewrite (parseIPv6_block src dst _ _ _ _ surplus raw Hs Hd).
  explode src Hs. explode dst Hd. reflexivity.
Qed.

(** The handler takes each path as described. *)
Lemma Decodes_sound (raw : Conn) (o : Outcome) (raw' : Conn) :
  Decodes raw o raw' -> handle raw = (o, raw').
Proof.
  intros D. destruct D as
    [ got c Hlen
    | sig verCmd famProto l0 l1 rest c Hlen Hsig
    | verCmd famProto l0 l1 rest c Hv
    | verCmd famProto l0 l1 rest c Hv Hc
    | verCmd famProto l0 l1 got c Hv Hc Hlen
    | verCmd famProto l0 l1 block payload c Hv Hc Hlen Hf Hb
    | verCmd famProto l0 l1 block payload c Hv Hc Hlen Hf Hb
    | verCmd famProto l0 l1 block payload c Hv Hc Hlen Hf Hb
    | verCmd famProto l0 l1 block payload c Hv Hc Hlen Hf Hb
    | verCmd famProto l0 l1 block payload c Hv Hc Hlen Hf1 Hf2 ].
  - apply handle_short_header. exact Hlen.
  - rewrite handle_fixedHeader by exact Hlen.
    destruct (bytes_eqb sig ppv2Signature) eqn:E; [|reflexivity].
    apply bytes_eqb_eq in E. contradiction.
  - rewrite handle_fixedHeader by reflexivity.
    replace (bytes_eqb ppv2Signature ppv2Signature) with true by reflexivity.
    cbn [negb]. apply N.eqb_neq in Hv. rewrite Hv. reflexivity.
  - rewrite handle_fixedHeader by reflexivity.
    replace (bytes_eqb ppv2Signature ppv2Signature) with true by reflexivity.
    cbn [negb]. rewrite Hv. apply N.eqb_neq in Hc. rewrite Hc. reflexivity.
  - rewrite handle_accepted by assumption.
    apply readBlock_short. exact Hlen.
  - rewrite handle_accepted, readBlock_full by assumption.
    fold (family famProto). rewrite Hf.
    rewrite parseIPv4_short by exact Hb. reflexivity.
  - rewrite handle_accepted, readBlock_full by assumption.
    fold (family famProto). rewrite Hf.
    rewrite parseIPv4_long by exact Hb. reflexivity.
  - rewrite handle_accepted, readBlock_full by assumption.
    fold (family famProto). rewrite Hf.
    rewrite parseIPv6_short by exact Hb. reflexivity.
  - rewrite handle_accepted, readBlock_full by assumption.
    fold (family famProto). rewrite Hf.
    rewrite parseIPv6_long by exact Hb. reflexivity.
  - rewrite handle_accepted, readBlock_full by assumption.
    fold (family famProto).
    destruct (family famProto) as [|[[p|p|]|[p|p|]|]]; try reflexivity;
      contradiction.
Qed.

(** Every connection takes one of the paths. *)
Lemma Decodes_total (raw : Conn) : exists o raw', Decodes raw o raw'.
Proof.
  destruct raw as [content c].
  destruct (Nat.lt_ge_cases (length content) 16) as [Hshort | Hlong].
  { eexists _, _. apply D_short_header. exact Hshort. }
  destruct (split_at 16 content Hlong) as (header & rest & -> & Hh).
  destruct (split_at 12 header ltac:(lia)) as (sig & four & -> & Hs).
  rewrite length_app in Hh.
  assert (H4 : length four = 4%nat) by lia.
  destruct four as [|verCmd [|famProto [|l0 [|l1 [|]]]]]; try discriminate H4.
  change (sig ++ [verCmd; famProto; l0; l1])
    with (fixedHeader sig verCmd famProto l0 l1).
  destruct (list_eq_dec Byte.byte_eq_dec sig ppv2Signature) as [-> | Hsig].
  2:{ eexists _, _. apply D_signature; assumption. }
  destruct (N.eq_dec (version verCmd) 2) as [Hv | Hv].
  2:{ eexists _, _. apply D_version; assumption. }
  destruct (N.eq_dec (command verCmd) 1) as [Hc | Hc].
  2:{ eexists _, _. apply D_command; assumption. }
  destruct (Nat.lt_ge_cases (length rest) (addressLength l0 l1)) as [Hb | Hb].
  { eexists _, _. apply D_short_block; assumption. }
  destruct (split_at _ rest Hb) as (block & payload & -> & Hblock).
  destruct (N.eq_dec (family famProto) 1) as [Hf1 | Hf1].
  { destruct (Nat.lt_ge_cases (length block) 12).
    - eexists _, _. apply D_short_IPv4; assumption.
    - eexists _, _. apply D_IPv4; assumption. }
  destruct (N.eq_dec (family famProto) 2) as [Hf2 | Hf2].
  { destruct (Nat.lt_ge_cases (length block) 36).
    - eexists _, _. apply D_short_IPv6; assumption.
    - eexists _, _. apply D_IPv6; assumption. }
  eexists _, _. apply D_family; assumption.
Qed.

(** The paths are what the handler does. *)
Lemma handle_Decodes (raw : Conn) (o : Outcome) (raw' : Conn) :
  handle raw = (o, raw') <-> Decodes raw o raw'.
Proof.
  split; [|apply Decodes_sound].
  intros H. destruct (Decodes_total raw) as (o1 & raw1 & D).
  pose proof (Decodes_sound _ _ _ D) as H1.
  rewrite H in H1. injection H1 as -> ->. exact D.
Qed.

(** No index and no slice of the handler is ever out of range. *)
Lemma handle_never_panics (raw : Conn) : fst (handle raw) <> Panicked.
Proof.
  destruct (handle raw) as [o raw'] eqn:H. apply handle_Decodes in H.
  destruct H; discriminate.
Qed.

(** ** Reading the decoded addresses *)

Lemma To4_IPv4 (q : list byte) :
  length q = 4%nat -> To4 (v4InV6Prefix ++ q) = q.
Proof. intros H. explode q H. reflexivity. Qed.

Lemma to_N_byteOf (n : N) : n < 256 -> Byte.to_N (byteOf n) = n.
Proof.
  intros H. unfold byteOf. destruct (Byte.of_N n) as [b|] eqn:E.
  - apply Byte.to_of_N. exact E.
  - apply Byte.of_N_None_iff in E. lia.
Qed.

Lemma u16_putUint16 (v : N) :
  v < 65536 ->
  256 * Byte.to_N (byteOf (v / 256)) + Byte.to_N (byteOf (v mod 256)) = v.
Proof.
  intros H.
  assert (v / 256 < 256) by (apply N.Div0.div_lt_upper_bound; lia).
  assert (v mod 256 < 256) by (apply N.mod_lt; lia).
  rewrite !to_N_byteOf by assumption.
  symmetry. apply N.div_mod. lia.
Qed.

(** A block of family IPv4 behind an accepted header. *)
Lemma handle_IPv4 (verCmd famProto l0 l1 : byte) (block payload : list byte) (c : error) :
  version verCmd = 2 -> command verCmd = 1 -> family famProto = 1 ->
  length block = addressLength l0 l1 -> (12 <= length block)%nat ->
  handle (mkConn (fixedHeader ppv2Signature verCmd famProto l0 l1 ++ block ++ payload) c)
  = (GotConnection (endpointsIPv4 block), mkConn payload c).
Proof. intros. apply Decodes_sound, D_IPv4; assumption. Qed.

(** A block of family IPv6 behind an accepted header. *)
Lemma handle_IPv6 (verCmd famProto l0 l1 : byte) (block payload : list byte) (c : error) :
  version verCmd = 2 -> command verCmd = 1 -> family famProto = 2 ->
  length block = addressLength l0 l1 -> (36 <= length block)%nat ->
  handle (mkConn (fixedHeader ppv2Signature verCmd famProto l0 l1 ++ block ++ payload) c)
  = (GotConnection (endpointsIPv6 block), mkConn payload c).
Proof. intros. apply Decodes_sound, D_IPv6; assumption. Qed.

Lemma To4_endpointsIPv4 (block : list byte) :
  (12 <= length block)%nat ->
  To4 (srcIP (endpointsIPv4 block)) = firstn 4 block
  /\ To4 (dstIP (endpointsIPv4 block)) = firstn 4 (skipn 4 block).
Proof.
  intros H. cbn [endpointsIPv4 srcIP dstIP]. split; apply To4_IPv4.
  - apply firstn_length_le. lia.
  - apply firstn_length_le. rewrite length_skipn. lia.
Qed.

(** ** The properties of the decoder *)

(** C1. Behind a header with the signature, version 2, command PROXY,
    family IPv4 and address length 12, every 12-byte block [b] decodes to
    source address [b[0..3]], destination address [b[4..7]], source port the
    big-endian number of [b[8..9]] and destination port that of
    [b[10..11]]; behind such a header of family IPv6 and address length 36,
    every 36-byte block decodes to [b[0..15]], [b[16..31]] and the
    big-endian numbers of [b[32..33]] and [b[34..35]].  Hence encoding
    endpoints and decoding them gives the endpoints back.  The handler
    stops right behind the block. *)
Theorem C1_address_block_round_trip :
  (forall (verCmd famProto l0 l1 : byte) (b payload : list byte) (c : error),
      version verCmd = 2 -> command verCmd = 1 -> family famProto = 1 ->
      addressLength l0 l1 = 12%nat -> length b = 12%nat ->
      exists ep,
        handle (mkConn (fixedHeader ppv2Signature verCmd famProto l0 l1 ++ b ++ payload) c)
        = (GotConnection ep, mkConn payload c)
        /\ To4 (srcIP ep) = firstn 4 b
        /\ To4 (dstIP ep) = firstn 4 (skipn 4 b)
        /\ srcPort ep = u16At b 8
        /\ dstPort ep = u16At b 10)
  /\ (forall (verCmd famProto l0 l1 : byte) (b payload : list byte) (c : error),
      version verCmd = 2 -> command verCmd = 1 -> family famProto = 2 ->
      addressLength l0 l1 = 36%nat -> length b = 36%nat ->
      exists ep,
        handle (mkConn (fixedHeader ppv2Signature verCmd famProto l0 l1 ++ b ++ payload) c)
        = (GotConnection ep, mkConn payload c)
        /\ srcIP ep = firstn 16 b
        /\ dstIP ep = firstn 16 (skipn 16 b)
        /\ srcPort ep = u16At b 32
        /\ dstPort ep = u16At b 34)
  /\ (forall (src dst : list byte) (sport dport : N) (payload : list byte) (c : error),
      length src = 4%nat -> length dst = 4%nat -> sport < 65536 -> dport < 65536 ->
      exists ep,
        handle (mkConn (encodeIPv4 src dst sport dport ++ payload) c)
        = (GotConnection ep, mkConn payload c)
        /\ To4 (srcIP ep) = src /\ To4 (dstIP ep) = dst
        /\ srcPort ep = sport /\ dstPort ep = dport)
  /\ (forall (src dst : list byte) (sport dport : N) (payload : list byte) (c : error),
      length src = 16%nat -> length dst = 16%nat -> sport < 65536 -> dport < 65536 ->
      exists ep,
        handle (mkConn (encodeIPv6 src dst sport dport ++ payload) c)
        = (GotConnection ep, mkConn payload c)
        /\ srcIP ep = src /\ dstIP ep = dst
        /\ srcPort ep = sport /\ dstPort ep = dport).
Proof.
  repeat split.
  - eexists. split; [apply handle_IPv4; try assumption; lia|].
    destruct (To4_endpointsIPv4 b ltac:(lia)) as [Hs Hd].
    repeat split; [exact Hs | exact Hd].
  - eexists. split; [apply handle_IPv6; try assumption; lia|].
    repeat split.
  - intros src dst sport dport payload c Hs Hd Hsp Hdp.
    unfold encodeIPv4. rewrite <- app_assoc.
    eexists. split.
    { apply handle_IPv4; try reflexivity.
      - rewrite !length_app, Hs, Hd. reflexivity.
      - rewrite !length_app, Hs, Hd. cbn [putUint16 length]. lia. }
    explode src Hs. explode dst Hd.
    cbn [app putUint16 endpointsIPv4 srcIP dstIP srcPort dstPort firstn skipn
         u16At nth].
    rewrite !To4_IPv4 by reflexivity.
    unfold u16At, putUint16. cbn [nth].
    rewrite !u16_putUint16 by assumption. repeat split.
  - intros src dst sport dport payload c Hs Hd Hsp Hdp.
    unfold encodeIPv6. rewrite <- app_assoc.
    eexists. split.
    { apply handle_IPv6; try reflexivity.
      - rewrite !length_app, Hs, Hd. reflexivity.
      - rewrite !length_app, Hs, Hd. cbn [putUint16 length]. lia. }
    explode src Hs. explode dst Hd.
    cbn [app putUint16 endpointsIPv6 srcIP dstIP srcPort dstPort firstn skipn
         u16At nth].
    unfold u16At, putUint16. cbn [nth].
    rewrite !u16_putUint16 by assumption. repeat split.
Qed.

Lemma C1_address_block_round_trip_witness :
  exists ep,
    handle (mkConn (fixedHeader ppv2Signature x21 x11 x00 x0c
                    ++ [xc0; xa8; x00; x01; x0a; x00; x00; x02; xc3; x50; x01; xbb]
                    ++ [x47; x45; x54]) EOF)
    = (GotConnection ep, mkConn [x47; x45; x54] EOF)
    /\ To4 (srcIP ep) = [xc0; xa8; x00; x01]
    /\ To4 (dstIP ep) = [x0a; x00; x00; x02]
    /\ srcPort ep = 50000
    /\ dstPort ep = 443.
Proof.
  apply (proj1 C1_address_block_round_trip x21 x11 x00 x0c
           [xc0; xa8; x00; x01; x0a; x00; x00; x02; xc3; x50; x01; xbb]
           [x47; x45; x54] EOF); reflexivity.
Defined.

(** C2. The 28-byte stream made of the signature, [21], [11], [000C],
    [7B7B7B7B], [08080808], [1F90], [0050] decodes, with source
    123.123.123.123 port 8080 and destination 8.8.8.8 port 80; the
    addresses the handler prints are "123.123.123.123:8080" and
    "8.8.8.8:80". *)
Theorem C2_end_to_end_scenario (payload : list byte) (c : error) :
  scenario
  = [x0d; x0a; x0d; x0a; x00; x0d; x0a; x51; x52; x4f; x54; x0a;
     x21; x11; x00; x0c;
     x7b; x7b; x7b; x7b; x08; x08; x08; x08; x1f; x90; x00; x50]
  /\ exists ep,
      handle (mkConn (scenario ++ payload) c) = (GotConnection ep, mkConn payload c)
      /\ To4 (srcIP ep) = [x7b; x7b; x7b; x7b] /\ srcPort ep = 8080
      /\ To4 (dstIP ep) = [x08; x08; x08; x08] /\ dstPort ep = 80
      /\ hostport (srcIP ep) (srcPort ep) = Some "123.123.123.123:8080"%string
      /\ hostport (dstIP ep) (dstPort ep) = Some "8.8.8.8:80"%string.
Proof.
  split; [reflexivity|].
  exists (mkEndpoints (IPv4 x7b x7b x7b x7b) (IPv4 x08 x08 x08 x08) 8080 80).
  split; [|repeat split].
  apply (handle_IPv4 x21 x11 x00 x0c
           [x7b; x7b; x7b; x7b; x08; x08; x08; x08; x1f; x90; x00; x50] payload c);
    reflexivity.
Qed.

(** C3. [checkSignature] returns [true] exactly on the 12 bytes
    [0D 0A 0D 0A 00 0D 0A 51 52 4F 54 0A]; on an input of any other length
    it returns [false]; it returns on every input (no index is out of
    range), and being a function its result depends on the input only. *)
Theorem C3_checkSignature_exact (sig : list byte) :
  (exists r, checkSignature sig = Some r
             /\ (r = true <->
                 sig = [x0d; x0a; x0d; x0a; x00; x0d; x0a; x51; x52; x4f; x54; x0a]))
  /\ (length sig <> 12%nat -> checkSignature sig = Some false).
Proof.
  rewrite checkSignature_spec. split.
  - eexists. split; [reflexivity|]. apply bytes_eqb_eq.
  - intros H. f_equal.
    destruct (bytes_eqb sig ppv2Signature) eqn:E; [|reflexivity].
    apply bytes_eqb_eq in E. subst sig. contradiction H. reflexivity.
Qed.

Lemma C3_checkSignature_exact_witness :
  checkSignature [x0d; x0a; x0d; x0a; x00; x0d; x0a; x51; x52; x4f; x54] = Some false.
Proof.
  apply (proj2 (C3_checkSignature_exact
                  [x0d; x0a; x0d; x0a; x00; x0d; x0a; x51; x52; x4f; x54])).
  cbn [length]. discriminate.
Defined.

(** Sixteen header bytes determine their fields. *)
Lemma fixedHeader_inj (sig sig' : list byte) (v v' f f' a a' b b' : byte)
      (rest rest' : list byte) :
  length sig = 12%nat -> length sig' = 12%nat ->
  fixedHeader sig v f a b ++ rest = fixedHeader sig' v' f' a' b' ++ rest' ->
  sig = sig' /\ v = v' /\ f = f' /\ a = a' /\ b = b' /\ rest = rest'.
Proof.
  intros H H' E. explode sig H. explode sig' H'.
  cbn [fixedHeader app] in E. injection E as -> -> -> -> -> -> -> -> -> -> -> -> -> -> -> -> ->.
  repeat split.
Qed.

(** C4. Endpoints come only out of a header with the signature, version 2,
    command PROXY and family IPv4 or IPv6; with any other family nibble no
    endpoints are produced, and once the address block is read the handler
    leaves through "Unrecognized address family" (UnknownAddressFamily). *)
Theorem C4_endpoints_need_valid_header :
  (forall (raw : Conn) (ep : Endpoints) (raw' : Conn),
      handle raw = (GotConnection ep, raw') ->
      exists verCmd famProto l0 l1 rest,
        pending raw = fixedHeader ppv2Signature verCmd famProto l0 l1 ++ rest
        /\ version verCmd = 2 /\ command verCmd = 1
        /\ (family famProto = 1 \/ family famProto = 2))
  /\ (forall (sig : list byte) (verCmd famProto l0 l1 : byte) (rest : list byte)
             (c : error) (ep : Endpoints) (raw' : Conn),
      length sig = 12%nat -> family famProto <> 1 -> family famProto <> 2 ->
      handle (mkConn (fixedHeader sig verCmd famProto l0 l1 ++ rest) c)
      <> (GotConnection ep, raw'))
  /\ (forall (verCmd famProto l0 l1 : byte) (block payload : list byte) (c : error),
      version verCmd = 2 -> command verCmd = 1 ->
      family famProto <> 1 -> family famProto <> 2 ->
      length block = addressLength l0 l1 ->
      handle (mkConn (fixedHeader ppv2Signature verCmd famProto l0 l1 ++ block ++ payload) c)
      = (UnrecognizedAddressFamily (family famProto), mkConn payload c)).
Proof.
  assert (Hgot : forall raw ep raw',
             handle raw = (GotConnection ep, raw') ->
             exists verCmd famProto l0 l1 rest,
               pending raw = fixedHeader ppv2Signature verCmd famProto l0 l1 ++ rest
               /\ version verCmd = 2 /\ command verCmd = 1
               /\ (family famProto = 1 \/ family famProto = 2)).
  { intros raw ep raw' H. apply handle_Decodes in H.
    inversion H; subst; eexists _, _, _, _, _; cbn [pending]; eauto. }
  split; [exact Hgot|]. split.
  - intros sig verCmd famProto l0 l1 rest c ep raw' Hsig Hf1 Hf2 H.
    destruct (Hgot _ _ _ H) as (v & f & a & b & rest0 & E & _ & _ & Hf).
    cbn [pending] in E.
    apply fixedHeader_inj in E; [|exact Hsig|reflexivity].
    destruct E as (_ & _ & -> & _). destruct Hf; contradiction.
  - intros. apply Decodes_sound, D_family; assumption.
Qed.

Lemma C4_endpoints_need_valid_header_witness :
  handle (mkConn (fixedHeader ppv2Signature x21 x31 x00 x02 ++ [x2f; x74] ++ [x47]) EOF)
  = (UnrecognizedAddressFamily 3, mkConn [x47] EOF).
Proof.
  apply (proj2 (proj2 C4_endpoints_need_valid_header) x21 x31 x00 x02 [x2f; x74] [x47] EOF);
    try reflexivity; discriminate.
Defined.

(** C5, as the handler has it.  Behind an accepted header whose address
    length is below the minimum of its family (12 for IPv4, 36 for IPv6) no
    endpoints are produced: when the connection delivers the declared
    bytes the handler leaves through "Not enough data for IPv4 (IPv6)
    address block" (TruncatedAddressBlock); when the connection stops
    before that, it leaves through "Error reading address block". *)
Theorem C5_short_address_length
        (verCmd famProto l0 l1 : byte) (rest : list byte) (c : error) :
  version verCmd = 2 -> command verCmd = 1 ->
  (family famProto = 1 /\ (addressLength l0 l1 < 12)%nat)
  \/ (family famProto = 2 /\ (addressLength l0 l1 < 36)%nat) ->
  let raw := mkConn (fixedHeader ppv2Signature verCmd famProto l0 l1 ++ rest) c in
  (forall ep raw', handle raw <> (GotConnection ep, raw'))
  /\ ((addressLength l0 l1 <= length rest)%nat ->
      handle raw
      = (if family famProto =? 1 then NotEnoughDataIPv4 else NotEnoughDataIPv6,
         mkConn (skipn (addressLength l0 l1) rest) c))
  /\ ((length rest < addressLength l0 l1)%nat ->
      handle raw = (ErrorReadingAddressBlock (shortRead rest c), mkConn [] c)).
Proof.
  intros Hv Hc Hfam raw.
  assert (Hfull : (addressLength l0 l1 <= length rest)%nat ->
                  handle raw
                  = (if family famProto =? 1 then NotEnoughDataIPv4 else NotEnoughDataIPv6,
                     mkConn (skipn (addressLength l0 l1) rest) c)).
  { intros Hlen. subst raw.
    destruct (split_at _ rest Hlen) as (block & payload & -> & Hb).
    rewrite skipn_app, <- Hb, Nat.sub_diag, skipn_all. cbn [skipn app].
    apply Decodes_sound.
    destruct Hfam as [[Hf Hlt] | [Hf Hlt]]; rewrite Hf; cbn [N.eqb Pos.eqb].
    - apply D_short_IPv4; try assumption. lia.
    - apply D_short_IPv6; try assumption. lia. }
  assert (Hshort : (length rest < addressLength l0 l1)%nat ->
                   handle raw = (ErrorReadingAddressBlock (shortRead rest c), mkConn [] c)).
  { intros Hlen. apply Decodes_sound, D_short_block; assumption. }
  split; [|split; assumption].
  intros ep raw' H.
  destruct (Nat.lt_ge_cases (length rest) (addressLength l0 l1)) as [Hlen | Hlen].
  - rewrite (Hshort Hlen) in H. discriminate.
  - rewrite (Hfull Hlen) in H. destruct (family famProto =? 1); discriminate.
Qed.

Lemma C5_short_address_length_witness :
  handle (mkConn (fixedHeader ppv2Signature x21 x11 x00 x08
                  ++ [x7b; x7b; x7b; x7b; x08; x08; x08; x08; x47]) EOF)
  = (NotEnoughDataIPv4, mkConn [x47] EOF).
Proof.
  refine (proj1 (proj2 (C5_short_address_length x21 x11 x00 x08
                          [x7b; x7b; x7b; x7b; x08; x08; x08; x08; x47] EOF
                          eq_refl eq_refl (or_introl (conj eq_refl _)))) _);
    vm_compute; lia.
Defined.

(** C5 as stated fails: a header of family IPv4 declares 8 address bytes,
    and the connection ends after 4 of them; the handler leaves through
    "Error reading address block", not through "Not enough data for IPv4
    address block". *)
Lemma C5_counterexample :
  version x21 = 2 /\ command x21 = 1 /\ family x11 = 1
  /\ (addressLength x00 x08 < 12)%nat
  /\ handle (mkConn (fixedHeader ppv2Signature x21 x11 x00 x08 ++ [x7b; x7b; x7b; x7b]) EOF)
     = (ErrorReadingAddressBlock ErrUnexpectedEOF, mkConn [] EOF)
  /\ fst (handle (mkConn (fixedHeader ppv2Signature x21 x11 x00 x08
                          ++ [x7b; x7b; x7b; x7b]) EOF))
     <> NotEnoughDataIPv4.
Proof.
  repeat split; try reflexivity.
  - vm_compute. lia.
  - vm_compute. discriminate.
Qed.

Lemma flipAt_length (s : list byte) (i : nat) (k : N) :
  length (flipAt s i k) = length s.
Proof.
  revert i. induction s as [|b s IH]; intros [|i]; cbn [flipAt length];
    try reflexivity.
  rewrite IH. reflexivity.
Qed.

Lemma flipAt_signature (i : nat) (k : N) :
  (i < 12)%nat -> k < 8 -> flipAt ppv2Signature i k <> ppv2Signature.
Proof.
  intros Hi Hk.
  assert (Ek : k = 0 \/ k = 1 \/ k = 2 \/ k = 3 \/ k = 4 \/ k = 5 \/ k = 6 \/ k = 7)
    by lia.
  do 12 (destruct i as [|i];
         [ decompose [or] Ek; subst k; vm_compute; discriminate | ]).
  lia.
Qed.

Lemma handle_signature_mismatch (sig : list byte) (verCmd famProto l0 l1 : byte)
      (rest : list byte) (c : error) :
  length sig = 12%nat -> sig <> ppv2Signature ->
  handle (mkConn (fixedHeader sig verCmd famProto l0 l1 ++ rest) c)
  = (NoValidSignature, mkConn rest c).
Proof. intros. apply Decodes_sound, D_signature; assumption. Qed.

(** C6. A 16-byte header whose first 12 bytes are not the signature, in
    particular the signature with one bit flipped, is rejected through "No
    valid Proxy Protocol v2 signature detected" (SignatureMismatch),
    whatever the other four header bytes and the bytes after the header
    are; nothing behind the header is read. *)
Theorem C6_signature_mismatch :
  (forall (sig : list byte) (verCmd famProto l0 l1 : byte) (rest : list byte) (c : error),
      length sig = 12%nat -> sig <> ppv2Signature ->
      handle (mkConn (fixedHeader sig verCmd famProto l0 l1 ++ rest) c)
      = (NoValidSignature, mkConn rest c))
  /\ (forall (i : nat) (k : N) (verCmd famProto l0 l1 : byte) (rest : list byte) (c : error),
      (i < 12)%nat -> k < 8 ->
      handle (mkConn (fixedHeader (flipAt ppv2Signature i k) verCmd famProto l0 l1 ++ rest) c)
      = (NoValidSignature, mkConn rest c)).
Proof.
  split.
  - apply handle_signature_mismatch.
  - intros. apply handle_signature_mismatch.
    + rewrite flipAt_length. reflexivity.
    + apply flipAt_signature; assumption.
Qed.

Lemma C6_signature_mismatch_witness :
  handle (mkConn (fixedHeader [x0d; x0a; x0d; x0a; x00; x0d; x0a; x51; x52; x4f; x54; x0b]
                              x21 x11 x00 x0c
                  ++ [x7b; x7b; x7b; x7b; x08; x08; x08; x08; x1f; x90; x00; x50]) EOF)
  = (NoValidSignature,
     mkConn [x7b; x7b; x7b; x7b; x08; x08; x08; x08; x1f; x90; x00; x50] EOF).
Proof.
  apply (proj2 C6_signature_mismatch 11%nat 0 x21 x11 x00 x0c
           [x7b; x7b; x7b; x7b; x08; x08; x08; x08; x1f; x90; x00; x50] EOF);
    [cbv; lia | reflexivity].
Defined.

Lemma shortRead_deadline (got : list byte) (c : error) :
  shortRead got c = ErrDeadlineExceeded <-> c = ErrDeadlineExceeded.
Proof. destruct got, c; cbn [shortRead]; split; congruence. Qed.






(** C8. A connection that ends after fewer than 16 bytes makes the handler
    leave through "Error reading initial header" with an end-of-stream
    error (IncompleteHeader): [EOF] when nothing arrived,
    [ErrUnexpectedEOF] otherwise.  No endpoints are produced, and nothing
    is indexed out of range. *)
Theorem C8_incomplete_header (got : list byte) :
  (length got < 16)%nat ->
  handle (mkConn got EOF)
  = (ErrorReadingInitialHeader (match got with [] => EOF | _ :: _ => ErrUnexpectedEOF end),
     mkConn [] EOF)
  /\ fst (handle (mkConn got EOF)) <> Panicked
  /\ forall ep, fst (handle (mkConn got EOF)) <> GotConnection ep.
Proof.
  intros H. rewrite handle_short_header by exact H.
  destruct got; cbn [shortRead fst]; repeat split; discriminate.
Qed.

Lemma C8_incomplete_header_witness :
  handle (mkConn [x0d; x0a; x0d; x0a; x00; x0d; x0a; x51; x52; x4f] EOF)
  = (ErrorReadingInitialHeader ErrUnexpectedEOF, mkConn [] EOF).
Proof.
  apply (C8_incomplete_header [x0d; x0a; x0d; x0a; x00; x0d; x0a; x51; x52; x4f]).
  cbv. lia.
Defined.

(** The two paths that reach the endpoints. *)
Lemma handle_got (raw : Conn) (ep : Endpoints) (raw' : Conn) :
  handle raw = (GotConnection ep, raw') ->
  exists verCmd famProto l0 l1 block payload c,
    raw = mkConn (fixedHeader ppv2Signature verCmd famProto l0 l1 ++ block ++ payload) c
    /\ raw' = mkConn payload c
    /\ version verCmd = 2 /\ command verCmd = 1
    /\ length block = addressLength l0 l1
    /\ ((family famProto = 1 /\ (12 <= length block)%nat /\ ep = endpointsIPv4 block)
        \/ (family famProto = 2 /\ (36 <= length block)%nat /\ ep = endpointsIPv6 block)).
Proof.
  intros H. apply handle_Decodes in H.
  inversion H; subst; eexists _, _, _, _, _, _, _;
    (split; [reflexivity|]); (split; [reflexivity|]); auto 10.
Qed.

(** C9. When the handler has decoded the endpoints it has taken exactly
    the 16 header bytes and the [addressLength] bytes of the block from the
    connection: what is left pending is the application payload, from its
    first byte on. *)
Theorem C9_consumes_exactly_the_preamble (raw : Conn) (ep : Endpoints) (raw' : Conn) :
  handle raw = (GotConnection ep, raw') ->
  exists verCmd famProto l0 l1 block,
    pending raw
    = fixedHeader ppv2Signature verCmd famProto l0 l1 ++ block ++ pending raw'
    /\ length (fixedHeader ppv2Signature verCmd famProto l0 l1) = 16%nat
    /\ length block = addressLength l0 l1
    /\ pending raw' = skipn (16 + addressLength l0 l1) (pending raw)
    /\ closing raw' = closing raw.
Proof.
  intros H.
  destruct (handle_got _ _ _ H)
    as (verCmd & famProto & l0 & l1 & block & payload & c & -> & -> & _ & _ & Hb & _).
  exists verCmd, famProto, l0, l1, block. cbn [pending closing].
  repeat split; try assumption.
  rewrite <- Hb.
  change (16 + length block)%nat
    with (length (fixedHeader ppv2Signature verCmd famProto l0 l1) + length block)%nat.
  rewrite <- length_app, app_assoc, skipn_app, Nat.sub_diag, skipn_all.
  reflexivity.
Qed.

Lemma C9_consumes_exactly_the_preamble_witness :
  exists verCmd famProto l0 l1 block,
    scenario ++ [x47; x45; x54]
    = fixedHeader ppv2Signature verCmd famProto l0 l1 ++ block ++ [x47; x45; x54]
    /\ length (fixedHeader ppv2Signature verCmd famProto l0 l1) = 16%nat
    /\ length block = addressLength l0 l1
    /\ [x47; x45; x54] = skipn (16 + addressLength l0 l1) (scenario ++ [x47; x45; x54])
    /\ EOF = EOF.
Proof.
  apply (C9_consumes_exactly_the_preamble
           (mkConn (scenario ++ [x47; x45; x54]) EOF)
           (mkEndpoints (IPv4 x7b x7b x7b x7b) (IPv4 x08 x08 x08 x08) 8080 80)
           (mkConn [x47; x45; x54] EOF)).
  vm_compute. reflexivity.
Defined.

(** C10. Behind an accepted header of family IPv4 (IPv6) that declares more
    than 12 (36) address bytes, on a connection that delivers them, the
    handler decodes the endpoints from the first 12 (36) bytes of the block
    alone and takes the whole block from the connection: the surplus bytes
    are not part of what is left pending, and the endpoints do not depend
    on them. *)
Theorem C10_surplus_is_consumed_and_ignored :
  (forall (verCmd famProto l0 l1 : byte) (b surplus payload : list byte) (c : error),
      version verCmd = 2 -> command verCmd = 1 -> family famProto = 1 ->
      length b = 12%nat -> (12 < addressLength l0 l1)%nat ->
      length (b ++ surplus) = addressLength l0 l1 ->
      exists ep,
        handle (mkConn (fixedHeader ppv2Signature verCmd famProto l0 l1
                        ++ (b ++ surplus) ++ payload) c)
        = (GotConnection ep, mkConn payload c)
        /\ ep = endpointsIPv4 b
        /\ To4 (srcIP ep) = firstn 4 b
        /\ To4 (dstIP ep) = firstn 4 (skipn 4 b)
        /\ srcPort ep = u16At b 8
        /\ dstPort ep = u16At b 10)
  /\ (forall (verCmd famProto l0 l1 : byte) (b surplus payload : list byte) (c : error),
      version verCmd = 2 -> command verCmd = 1 -> family famProto = 2 ->
      length b = 36%nat -> (36 < addressLength l0 l1)%nat ->
      length (b ++ surplus) = addressLength l0 l1 ->
      exists ep,
        handle (mkConn (fixedHeader ppv2Signature verCmd famProto l0 l1
                        ++ (b ++ surplus) ++ payload) c)
        = (GotConnection ep, mkConn payload c)
        /\ ep = endpointsIPv6 b
        /\ srcIP ep = firstn 16 b
        /\ dstIP ep = firstn 16 (skipn 16 b)
        /\ srcPort ep = u16At b 32
        /\ dstPort ep = u16At b 34).
Proof.
  split.
  - intros verCmd famProto l0 l1 b surplus payload c Hv Hc Hf Hb Hlong Hlen.
    assert (E : endpointsIPv4 (b ++ surplus) = endpointsIPv4 b).
    { explode b Hb. reflexivity. }
    exists (endpointsIPv4 b). rewrite <- E at 1.
    split; [apply handle_IPv4; try assumption; lia|].
    destruct (To4_endpointsIPv4 b ltac:(lia)) as [Hs Hd].
    repeat split; [exact Hs | exact Hd].
  - intros verCmd famProto l0 l1 b surplus payload c Hv Hc Hf Hb Hlong Hlen.
    assert (E : endpointsIPv6 (b ++ surplus) = endpointsIPv6 b).
    { explode b Hb. reflexivity. }
    exists (endpointsIPv6 b). rewrite <- E at 1.
    split; [apply handle_IPv6; try assumption; lia|].
    repeat split.
Qed.

Lemma C10_surplus_is_consumed_and_ignored_witness :
  exists ep,
    handle (mkConn (fixedHeader ppv2Signature x21 x11 x00 x0f
                    ++ ([x7b; x7b; x7b; x7b; x08; x08; x08; x08; x1f; x90; x00; x50]
                        ++ [x04; x00; x00])
                    ++ [x47; x45; x54]) EOF)
    = (GotConnection ep, mkConn [x47; x45; x54] EOF)
    /\ ep = endpointsIPv4 [x7b; x7b; x7b; x7b; x08; x08; x08; x08; x1f; x90; x00; x50]
    /\ To4 (srcIP ep) = [x7b; x7b; x7b; x7b]
    /\ To4 (dstIP ep) = [x08; x08; x08; x08]
    /\ srcPort ep = 8080
    /\ dstPort ep = 80.
Proof.
  apply (proj1 C10_surplus_is_consumed_and_ignored x21 x11 x00 x0f
           [x7b; x7b; x7b; x7b; x08; x08; x08; x08; x1f; x90; x00; x50]
           [x04; x00; x00] [x47; x45; x54] EOF);
    try reflexivity.
  vm_compute. lia.
Defined.

(** ** Further properties of steps 1 to 6 *)

Lemma addressLength_max (l0 l1 : byte) : N.of_nat (addressLength l0 l1) <= 65535.
Proof.
  unfold addressLength.
  pose proof (to_N_byte l0). pose proof (to_N_byte l1). lia.
Qed.

Lemma u16At_range (b : list byte) (i : nat) : u16At b i < 65536.
Proof.
  unfold u16At.
  pose proof (to_N_byte (nth i b x00)). pose proof (to_N_byte (nth (S i) b x00)). lia.
Qed.

Lemma version_range (verCmd : byte) : version verCmd < 16.
Proof. apply nibble_range. Qed.

Lemma command_range (verCmd : byte) : command verCmd < 16.
Proof. apply nibble_range. Qed.

Lemma family_range (famProto : byte) : family famProto < 16.
Proof. apply nibble_range. Qed.

(** X1. A header with the signature whose version nibble is not 2 is
    rejected through "Unsupported Proxy Protocol version" with that nibble,
    whatever its command, family and length bytes and whatever follows;
    the version is checked before the command, and only the 16 header
    bytes are read. *)
Theorem X1_unsupported_version
        (verCmd famProto l0 l1 : byte) (rest : list byte) (c : error) :
  version verCmd <> 2 ->
  handle (mkConn (fixedHeader ppv2Signature verCmd famProto l0 l1 ++ rest) c)
  = (UnsupportedVersion (version verCmd), mkConn rest c)
  /\ version verCmd < 16.
Proof.
  intros Hv. split; [|apply version_range].
  apply Decodes_sound, D_version. exact Hv.
Qed.

Lemma X1_unsupported_version_witness :
  handle (mkConn (fixedHeader ppv2Signature x11 x11 x00 x0c
                  ++ [x7b; x7b; x7b; x7b; x08; x08; x08; x08; x1f; x90; x00; x50]) EOF)
  = (UnsupportedVersion 1,
     mkConn [x7b; x7b; x7b; x7b; x08; x08; x08; x08; x1f; x90; x00; x50] EOF).
Proof.
  apply (X1_unsupported_version x11 x11 x00 x0c
           [x7b; x7b; x7b; x7b; x08; x08; x08; x08; x1f; x90; x00; x50] EOF).
  vm_compute. discriminate.
Defined.

(** X2. A version 2 header whose command is not PROXY (LOCAL, for one) is
    left through "Command is %d, not PROXY" with the command nibble; the
    address block it declares is not read: everything behind the 16 header
    bytes stays pending, whether or not the declared bytes are there. *)
Theorem X2_command_not_proxy
        (verCmd famProto l0 l1 : byte) (rest : list byte) (c : error) :
  version verCmd = 2 -> command verCmd <> 1 ->
  handle (mkConn (fixedHeader ppv2Signature verCmd famProto l0 l1 ++ rest) c)
  = (CommandNotProxy (command verCmd), mkConn rest c)
  /\ command verCmd < 16.
Proof.
  intros Hv Hc. split; [|apply command_range].
  apply Decodes_sound, D_command; assumption.
Qed.

Lemma X2_command_not_proxy_witness :
  handle (mkConn (fixedHeader ppv2Signature x20 x11 x00 x0c ++ [x7b; x7b]) ErrDeadlineExceeded)
  = (CommandNotProxy 0, mkConn [x7b; x7b] ErrDeadlineExceeded).
Proof.
  apply (X2_command_not_proxy x20 x11 x00 x0c [x7b; x7b] ErrDeadlineExceeded).
  - reflexivity.
  - vm_compute. discriminate.
Defined.

(** X3. No connection makes the handler index or slice out of range: steps
    1 to 6 never panic, and so neither does the whole handler. *)
Theorem X3_no_panic (raw : Conn) :
  fst (handle raw) <> Panicked
  /\ forall arrived, fst (handleConn raw arrived) <> Dropped Panicked.
Proof.
  assert (H : fst (handle raw) <> Panicked).
  { destruct (handle raw) as [o raw'] eqn:E. apply handle_Decodes in E.
    destruct E; discriminate. }
  split; [exact H|].
  intros arrived. unfold handleConn.
  destruct (handle raw) as [o raw1]. cbn [fst] in H.
  destruct o; try (cbn [fst]; congruence).
  destruct (Read raw1 1024 arrived) as [[n [[]|]] raw2]; discriminate.
Qed.

(** X4. Unless it is a read error, the way out of steps 1 to 6 depends
    only on the bytes the handler has taken: with more bytes behind them,
    and whatever ends the connection, the handler leaves the same way and
    leaves those bytes pending. *)
Theorem X4_outcome_independent_of_what_follows
        (raw : Conn) (o : Outcome) (raw' : Conn) (extra : list byte) (c' : error) :
  handle raw = (o, raw') ->
  (forall e, o <> ErrorReadingInitialHeader e) ->
  (forall e, o <> ErrorReadingAddressBlock e) ->
  handle (mkConn (pending raw ++ extra) c') = (o, mkConn (pending raw' ++ extra) c').
Proof.
  intros H Hh Hb. apply handle_Decodes in H. apply Decodes_sound.
  destruct H; cbn [pending];
    try (exfalso; eapply Hh; reflexivity);
    try (exfalso; eapply Hb; reflexivity);
    rewrite <- ?app_assoc.
  - apply D_signature; assumption.
  - apply D_version; assumption.
  - apply D_command; assumption.
  - apply D_short_IPv4; assumption.
  - apply D_IPv4; assumption.
  - apply D_short_IPv6; assumption.
  - apply D_IPv6; assumption.
  - apply D_family; assumption.
Qed.

Lemma X4_outcome_independent_of_what_follows_witness :
  handle (mkConn (scenario ++ [x47; x45; x54]) ErrDeadlineExceeded)
  = (GotConnection (mkEndpoints (IPv4 x7b x7b x7b x7b) (IPv4 x08 x08 x08 x08) 8080 80),
     mkConn [x47; x45; x54] ErrDeadlineExceeded).
Proof.
  apply (X4_outcome_independent_of_what_follows
           (mkConn scenario EOF)
           (GotConnection (mkEndpoints (IPv4 x7b x7b x7b x7b) (IPv4 x08 x08 x08 x08) 8080 80))
           (mkConn [] EOF) [x47; x45; x54] ErrDeadlineExceeded).
  - vm_compute. reflexivity.
  - discriminate.
  - discriminate.
Defined.

(** X5. Whatever the connection holds, steps 1 to 6 take a prefix of its
    bytes, of at most 16 + 65535 bytes, and leave the rest pending in
    order; what ends the connection is not changed. *)
Theorem X5_consumes_a_bounded_prefix (raw : Conn) (o : Outcome) (raw' : Conn) :
  handle raw = (o, raw') ->
  exists consumed,
    pending raw = consumed ++ pending raw'
    /\ N.of_nat (length consumed) <= 16 + 65535
    /\ closing raw' = closing raw.
Proof.
  intros H. apply handle_Decodes in H.
  destruct H as
    [ got c Hlen
    | sig verCmd famProto l0 l1 rest c Hlen Hsig
    | verCmd famProto l0 l1 rest c Hv
    | verCmd famProto l0 l1 rest c Hv Hc
    | verCmd famProto l0 l1 got c Hv Hc Hlen
    | verCmd famProto l0 l1 block payload c Hv Hc Hlen Hf Hb
    | verCmd famProto l0 l1 block payload c Hv Hc Hlen Hf Hb
    | verCmd famProto l0 l1 block payload c Hv Hc Hlen Hf Hb
    | verCmd famProto l0 l1 block payload c Hv Hc Hlen Hf Hb
    | verCmd famProto l0 l1 block payload c Hv Hc Hlen Hf1 Hf2 ];
    cbn [pending closing].
  - exists got. rewrite app_nil_r. repeat split. lia.
  - exists (fixedHeader sig verCmd famProto l0 l1). repeat split.
    unfold fixedHeader. rewrite length_app, Hlen. cbn [length]. lia.
  - exists (fixedHeader ppv2Signature verCmd famProto l0 l1). repeat split.
    cbn [fixedHeader ppv2Signature app length]. lia.
  - exists (fixedHeader ppv2Signature verCmd famProto l0 l1). repeat split.
    cbn [fixedHeader ppv2Signature app length]. lia.
  - exists (fixedHeader ppv2Signature verCmd famProto l0 l1 ++ got).
    rewrite app_nil_r. repeat split.
    pose proof (addressLength_max l0 l1).
    rewrite length_app. cbn [fixedHeader ppv2Signature app length]. lia.
  - exists (fixedHeader ppv2Signature verCmd famProto l0 l1 ++ block).
    rewrite <- app_assoc. repeat split.
    pose proof (addressLength_max l0 l1).
    rewrite length_app. cbn [fixedHeader ppv2Signature app length]. lia.
  - exists (fixedHeader ppv2Signature verCmd famProto l0 l1 ++ block).
    rewrite <- app_assoc. repeat split.
    pose proof (addressLength_max l0 l1).
    rewrite length_app. cbn [fixedHeader ppv2Signature app length]. lia.
  - exists (fixedHeader ppv2Signature verCmd famProto l0 l1 ++ block).
    rewrite <- app_assoc. repeat split.
    pose proof (addressLength_max l0 l1).
    rewrite length_app. cbn [fixedHeader ppv2Signature app length]. lia.
  - exists (fixedHeader ppv2Signature verCmd famProto l0 l1 ++ block).
    rewrite <- app_assoc. repeat split.
    pose proof (addressLength_max l0 l1).
    rewrite length_app. cbn [fixedHeader ppv2Signature app length]. lia.
  - exists (fixedHeader ppv2Signature verCmd famProto l0 l1 ++ block).
    rewrite <- app_assoc. repeat split.
    pose proof (addressLength_max l0 l1).
    rewrite length_app. cbn [fixedHeader ppv2Signature app length]. lia.
Qed.

Lemma X5_consumes_a_bounded_prefix_witness :
  exists consumed,
    fixedHeader ppv2Signature x20 x11 x00 x0c ++ [x7b; x7b] = consumed ++ [x7b; x7b]
    /\ N.of_nat (length consumed) <= 16 + 65535
    /\ EOF = EOF.
Proof.
  apply (X5_consumes_a_bounded_prefix
           (mkConn (fixedHeader ppv2Signature x20 x11 x00 x0c ++ [x7b; x7b]) EOF)
           (CommandNotProxy 0) (mkConn [x7b; x7b] EOF)).
  vm_compute. reflexivity.
Defined.

(** X6. "Error reading initial header" is reported exactly when fewer than
    16 bytes arrive; the error is then the connection's, end of stream
    being [EOF] when nothing arrived and [ErrUnexpectedEOF] otherwise, and
    the bytes that arrived are gone. *)
Theorem X6_initial_header_error (raw : Conn) (e : error) (raw' : Conn) :
  handle raw = (ErrorReadingInitialHeader e, raw')
  <-> ((length (pending raw) < 16)%nat
       /\ e = shortRead (pending raw) (closing raw)
       /\ raw' = mkConn [] (closing raw)).
Proof.
  split.
  - intros H. apply handle_Decodes in H. inversion H; subst.
    cbn [pending closing]. repeat split. assumption.
  - intros (Hlen & -> & ->). destruct raw as [got c]. cbn [pending closing] in *.
    apply handle_short_header. exact Hlen.
Qed.

Lemma X6_initial_header_error_witness :
  handle (mkConn [] EOF) = (ErrorReadingInitialHeader EOF, mkConn [] EOF).
Proof.
  apply (proj2 (X6_initial_header_error (mkConn [] EOF) EOF (mkConn [] EOF))).
  repeat split. cbv. lia.
Defined.

(** X7. "Error reading address block" is reported exactly when the header
    is accepted (signature, version 2, command PROXY) and fewer bytes
    follow than it declares; the family nibble plays no part, so a header
    of an unknown family, or with too short a length for its family, in
    front of an incomplete block is a read error. *)
Theorem X7_address_block_error (raw : Conn) (e : error) (raw' : Conn) :
  handle raw = (ErrorReadingAddressBlock e, raw')
  <-> exists verCmd famProto l0 l1 got,
      pending raw = fixedHeader ppv2Signature verCmd famProto l0 l1 ++ got
      /\ version verCmd = 2 /\ command verCmd = 1
      /\ (length got < addressLength l0 l1)%nat
      /\ e = shortRead got (closing raw)
      /\ raw' = mkConn [] (closing raw).
Proof.
  split.
  - intros H. apply handle_Decodes in H. inversion H; subst.
    eexists _, _, _, _, _. cbn [pending closing]. repeat split; eassumption.
  - intros (verCmd & famProto & l0 & l1 & got & Hp & Hv & Hc & Hlen & -> & ->).
    destruct raw as [content c]. cbn [pending closing] in *. subst content.
    apply Decodes_sound, D_short_block; assumption.
Qed.

Lemma X7_address_block_error_witness :
  handle (mkConn (fixedHeader ppv2Signature x21 x31 x00 x02 ++ [x2f]) ErrClosed)
  = (ErrorReadingAddressBlock ErrClosed, mkConn [] ErrClosed).
Proof.
  apply (proj2 (X7_address_block_error
                  (mkConn (fixedHeader ppv2Signature x21 x31 x00 x02 ++ [x2f]) ErrClosed)
                  ErrClosed (mkConn [] ErrClosed))).
  exists x21, x31, x00, x02, [x2f]. repeat split. vm_compute. lia.
Defined.

(** X8. An accepted header that declares an address length of 0 never
    leads to a read error, not even on a connection that has ended behind
    the header: nothing is read, and the handler leaves by the family
    alone, "Not enough data" for IPv4 and IPv6 and "Unrecognized address
    family" otherwise. *)
Theorem X8_zero_address_length
        (verCmd famProto l0 l1 : byte) (rest : list byte) (c : error) :
  version verCmd = 2 -> command verCmd = 1 -> addressLength l0 l1 = 0%nat ->
  handle (mkConn (fixedHeader ppv2Signature verCmd famProto l0 l1 ++ rest) c)
  = (if family famProto =? 1 then NotEnoughDataIPv4
     else if family famProto =? 2 then NotEnoughDataIPv6
          else UnrecognizedAddressFamily (family famProto),
     mkConn rest c).
Proof.
  intros Hv Hc Hz. apply Decodes_sound.
  change rest with ([] ++ rest).
  destruct (N.eqb_spec (family famProto) 1) as [Hf1 | Hf1].
  - apply D_short_IPv4; try assumption; try (symmetry; exact Hz); cbn [length]; lia.
  - destruct (N.eqb_spec (family famProto) 2) as [Hf2 | Hf2].
    + apply D_short_IPv6; try assumption; try (symmetry; exact Hz); cbn [length]; lia.
    + apply D_family; try assumption. symmetry. exact Hz.
Qed.

Lemma X8_zero_address_length_witness :
  handle (mkConn (fixedHeader ppv2Signature x21 x00 x00 x00 ++ []) EOF)
  = (UnrecognizedAddressFamily 0, mkConn [] EOF).
Proof.
  apply (X8_zero_address_length x21 x00 x00 x00 [] EOF); reflexivity.
Defined.

(** X9. The protocol nibble (the low four bits of the family byte) is not
    looked at: two streams that differ only there are handled alike, so a
    datagram header (0x12) decodes like a stream header (0x11). *)
Theorem X9_protocol_nibble_ignored
        (sig : list byte) (verCmd famProto famProto' l0 l1 : byte)
        (rest : list byte) (c : error) :
  length sig = 12%nat -> family famProto = family famProto' ->
  handle (mkConn (fixedHeader sig verCmd famProto l0 l1 ++ rest) c)
  = handle (mkConn (fixedHeader sig verCmd famProto' l0 l1 ++ rest) c).
Proof.
  intros Hsig Hf. rewrite !handle_fixedHeader by exact Hsig.
  unfold readBlock. fold (family famProto) (family famProto').
  rewrite Hf. reflexivity.
Qed.

Lemma X9_protocol_nibble_ignored_witness :
  handle (mkConn (fixedHeader ppv2Signature x21 x11 x00 x0c
                  ++ [x7b; x7b; x7b; x7b; x08; x08; x08; x08; x1f; x90; x00; x50]) EOF)
  = handle (mkConn (fixedHeader ppv2Signature x21 x12 x00 x0c
                    ++ [x7b; x7b; x7b; x7b; x08; x08; x08; x08; x1f; x90; x00; x50]) EOF).
Proof.
  apply (X9_protocol_nibble_ignored ppv2Signature x21 x11 x12 x00 x0c
           [x7b; x7b; x7b; x7b; x08; x08; x08; x08; x1f; x90; x00; x50] EOF);
    reflexivity.
Defined.

(** X10. The endpoints the handler decodes are always well formed: both
    addresses are 16 bytes long (an IPv4 address in its 16-byte form), and
    both ports are below 65536. *)
Theorem X10_endpoints_well_formed (raw : Conn) (ep : Endpoints) (raw' : Conn) :
  handle raw = (GotConnection ep, raw') ->
  length (srcIP ep) = 16%nat /\ length (dstIP ep) = 16%nat
  /\ srcPort ep < 65536 /\ dstPort ep < 65536.
Proof.
  intros H.
  destruct (handle_got _ _ _ H)
    as (verCmd & famProto & l0 & l1 & block & payload & c & _ & _ & _ & _ & _
        & [(_ & Hb & ->) | (_ & Hb & ->)]);
    cbn [endpointsIPv4 endpointsIPv6 srcIP dstIP srcPort dstPort];
    rewrite ?length_app, ?length_firstn, ?length_skipn;
    repeat split; try apply u16At_range; cbn [v4InV6Prefix length]; lia.
Qed.

Lemma X10_endpoints_well_formed_witness :
  length (IPv4 x7b x7b x7b x7b) = 16%nat /\ length (IPv4 x08 x08 x08 x08) = 16%nat
  /\ 8080 < 65536 /\ 80 < 65536.
Proof.
  apply (X10_endpoints_well_formed
           (mkConn scenario EOF)
           (mkEndpoints (IPv4 x7b x7b x7b x7b) (IPv4 x08 x08 x08 x08) 8080 80)
           (mkConn [] EOF)).
  vm_compute. reflexivity.
Defined.

(** X11. The number the handler reports when it rejects a header is the
    offending nibble of the stream it read: the high nibble of byte 12 for
    a version, which is then not 2; the low nibble of byte 12 for a
    command, which is then not 1; the high nibble of byte 13 for a family,
    which is then neither 1 nor 2.  Each is below 16. *)
Theorem X11_reported_nibbles (raw raw' : Conn) (n : N) :
  (handle raw = (UnsupportedVersion n, raw') ->
   n = N.shiftr (Byte.to_N (nth 12 (pending raw) x00)) 4 /\ n < 16 /\ n <> 2)
  /\ (handle raw = (CommandNotProxy n, raw') ->
      n = N.land (Byte.to_N (nth 12 (pending raw) x00)) 15 /\ n < 16 /\ n <> 1)
  /\ (handle raw = (UnrecognizedAddressFamily n, raw') ->
      n = N.shiftr (Byte.to_N (nth 13 (pending raw) x00)) 4
      /\ n < 16 /\ n <> 1 /\ n <> 2).
Proof.
  repeat apply conj; intros H; apply handle_Decodes in H; inversion H; subst;
    cbn [pending fixedHeader ppv2Signature app nth];
    repeat split; try assumption; try reflexivity.
  - apply version_range.
  - apply command_range.
  - apply family_range.
Qed.

Lemma X11_reported_nibbles_witness :
  3 = N.shiftr (Byte.to_N (nth 13 (fixedHeader ppv2Signature x21 x31 x00 x00) x00)) 4
  /\ 3 < 16 /\ 3 <> 1 /\ 3 <> 2.
Proof.
  apply (proj2 (proj2 (X11_reported_nibbles
                         (mkConn (fixedHeader ppv2Signature x21 x31 x00 x00) EOF)
                         (mkConn [] EOF) 3))).
  vm_compute. reflexivity.
Defined.

(** X12. The handler decodes endpoints exactly for the connections that
    start with the signature, version 2, command PROXY, deliver the address
    bytes the header declares, and declare at least 12 of them for family
    IPv4 or at least 36 for family IPv6. *)
Theorem X12_accepted_connections (raw : Conn) :
  (exists ep raw', handle raw = (GotConnection ep, raw'))
  <-> exists verCmd famProto l0 l1 rest,
      pending raw = fixedHeader ppv2Signature verCmd famProto l0 l1 ++ rest
      /\ version verCmd = 2 /\ command verCmd = 1
      /\ (addressLength l0 l1 <= length rest)%nat
      /\ ((family famProto = 1 /\ (12 <= addressLength l0 l1)%nat)
          \/ (family famProto = 2 /\ (36 <= addressLength l0 l1)%nat)).
Proof.
  split.
  - intros (ep & raw' & H).
    destruct (handle_got _ _ _ H)
      as (verCmd & famProto & l0 & l1 & block & payload & c & -> & _ & Hv & Hc & Hb & Hf).
    exists verCmd, famProto, l0, l1, (block ++ payload). cbn [pending].
    rewrite length_app, <- Hb.
    repeat split; try assumption; [lia|].
    destruct Hf as [(Hf & Hl & _) | (Hf & Hl & _)]; [left | right]; split; assumption.
  - intros (verCmd & famProto & l0 & l1 & rest & Hp & Hv & Hc & Hlen & Hf).
    destruct raw as [content c]. cbn [pending] in Hp. subst content.
    destruct (split_at _ rest Hlen) as (block & payload & -> & Hb).
    destruct Hf as [[Hf Hl] | [Hf Hl]].
    + eexists _, _. apply handle_IPv4; try assumption. lia.
    + eexists _, _. apply handle_IPv6; try assumption. lia.
Qed.

Lemma X12_accepted_connections_witness :
  exists ep raw', handle (mkConn scenario ErrClosed) = (GotConnection ep, raw').
Proof.
  apply (proj2 (X12_accepted_connections (mkConn scenario ErrClosed))).
  exists x21, x11, x00, x0c,
    [x7b; x7b; x7b; x7b; x08; x08; x08; x08; x1f; x90; x00; x50].
  repeat split; vm_compute; lia.
Defined.

(** ** Step 7 and the whole handler *)

Lemma Read_nothing (raw : Conn) (k arrived : nat) :
  pending raw = [] -> Read raw k arrived = ((O, Some (closing raw)), raw).
Proof. intros H. unfold Read. rewrite H. reflexivity. Qed.

(** A read on a connection with bytes pending takes at least one byte when
    the buffer has room, never more than the buffer holds, and never more
    than is pending. *)
Lemma Read_something (raw : Conn) (k arrived : nat) :
  pending raw <> [] ->
  exists n,
    Read raw k arrived = ((n, None), mkConn (skipn n (pending raw)) (closing raw))
    /\ (n <= k)%nat /\ (n <= length (pending raw))%nat /\ ((1 <= k)%nat -> (1 <= n)%nat).
Proof.
  intros H. unfold Read. destruct (pending raw) as [|b p] eqn:E; [contradiction|].
  eexists. split; [reflexivity|]. cbn [length]. lia.
Qed.

Lemma hello_not_empty : hello <> [].
Proof. vm_compute. discriminate. Qed.

(** Steps 1 to 6 do not change what ends the connection. *)
Lemma handle_closing (raw : Conn) (o : Outcome) (raw' : Conn) :
  handle raw = (o, raw') -> closing raw' = closing raw.
Proof.
  intros H. apply handle_Decodes in H. destruct H; reflexivity.
Qed.

(** X13. The handler writes either nothing or the greeting "Hello from
    server!\n", and it writes the greeting exactly when steps 1 to 6
    decoded the endpoints and the read behind them did not fail: payload
    was pending, or the connection had ended by end of stream.  Whatever
    happens, the connection is closed when the handler returns. *)
Theorem X13_greeting_only_behind_a_valid_preamble (raw : Conn) (arrived : nat) :
  (sent (snd (handleConn raw arrived)) = hello
   <-> exists ep raw1,
      handle raw = (GotConnection ep, raw1)
      /\ (pending raw1 <> [] \/ closing raw = EOF))
  /\ (sent (snd (handleConn raw arrived)) = hello
      \/ sent (snd (handleConn raw arrived)) = [])
  /\ closed (snd (handleConn raw arrived)) = true.
Proof.
  unfold handleConn. destruct (handle raw) as [o raw1] eqn:H.
  pose proof (handle_closing _ _ _ H) as Hc.
  pose proof hello_not_empty as Hne.
  destruct o as [e | | v | cmd | e | | | f | ep | ];
    try (cbn [snd sent closed]; repeat split; auto;
         [ intros Hs; symmetry in Hs; contradiction
         | intros (ep & raw2 & [=] & _) ]).
  destruct (pending raw1) as [|b p] eqn:Ep.
  - rewrite (Read_nothing raw1 1024 arrived Ep). rewrite Hc.
    destruct (closing raw) eqn:Ecl; cbn [snd sent closed]; repeat split; auto;
      try (intros Hs; symmetry in Hs; contradiction);
      try (intros (ep' & raw2 & [= <- <-] & [Hp | Hp]); [rewrite Ep in Hp|];
           congruence).
    intros _. exists ep, raw1. split; [reflexivity|]. right. reflexivity.
  - destruct (Read_something raw1 1024 arrived) as (n & -> & _).
    { rewrite Ep. discriminate. }
    cbn [snd sent closed]. repeat split; auto.
    intros _. exists ep, raw1. split; [reflexivity|]. left. rewrite Ep. discriminate.
Qed.

Lemma X13_greeting_only_behind_a_valid_preamble_witness :
  sent (snd (handleConn (mkConn scenario EOF) 0)) = hello.
Proof.
  apply (proj2 (proj1 (X13_greeting_only_behind_a_valid_preamble (mkConn scenario EOF) 0))).
  exists (mkEndpoints (IPv4 x7b x7b x7b x7b) (IPv4 x08 x08 x08 x08) 8080 80), (mkConn [] EOF).
  split; [vm_compute; reflexivity | right; reflexivity].
Defined.

(** X14. Behind a decoded preamble with no payload, end of stream is not
    an error: the handler logs 0 bytes received and still writes the
    greeting.  Any other end of the connection (the read deadline, a
    failure) is logged as a read error, and nothing is written. *)
Theorem X14_end_of_stream_behind_the_preamble
        (raw : Conn) (ep : Endpoints) (c : error) (arrived : nat) :
  handle raw = (GotConnection ep, mkConn [] c) ->
  handleConn raw arrived
  = match c with
    | EOF => (Received ep 0, mkWire (mkConn [] c) hello true)
    | _ => (ReadError ep c, mkWire (mkConn [] c) [] true)
    end.
Proof.
  intros H. unfold handleConn. rewrite H.
  rewrite Read_nothing by reflexivity. cbn [closing].
  destruct c; reflexivity.
Qed.

Lemma X14_end_of_stream_behind_the_preamble_witness :
  handleConn (mkConn scenario ErrDeadlineExceeded) 0
  = (ReadError (mkEndpoints (IPv4 x7b x7b x7b x7b) (IPv4 x08 x08 x08 x08) 8080 80)
               ErrDeadlineExceeded,
     mkWire (mkConn [] ErrDeadlineExceeded) [] true).
Proof.
  apply (X14_end_of_stream_behind_the_preamble
           (mkConn scenario ErrDeadlineExceeded)
           (mkEndpoints (IPv4 x7b x7b x7b x7b) (IPv4 x08 x08 x08 x08) 8080 80)
           ErrDeadlineExceeded 0).
  vm_compute. reflexivity.
Defined.

(** X15. Behind a decoded preamble with payload pending, the handler takes
    at least one and at most 1024 bytes of it in its single read, however
    much has arrived, writes the greeting, and leaves the rest of the
    payload unread. *)
Theorem X15_one_read_of_the_payload
        (raw : Conn) (ep : Endpoints) (raw1 : Conn) (arrived : nat) :
  handle raw = (GotConnection ep, raw1) -> pending raw1 <> [] ->
  exists n,
    handleConn raw arrived
    = (Received ep n, mkWire (mkConn (skipn n (pending raw1)) (closing raw1)) hello true)
    /\ (1 <= n <= 1024)%nat /\ (n <= length (pending raw1))%nat.
Proof.
  intros H Hp. unfold handleConn. rewrite H.
  destruct (Read_something raw1 1024 arrived Hp) as (n & -> & Hk & Hl & H1).
  exists n. split; [reflexivity|]. split; [|exact Hl].
  split; [apply H1; repeat constructor | exact Hk].
Qed.

Lemma X15_one_read_of_the_payload_witness :
  exists n,
    handleConn (mkConn (scenario ++ [x47; x45; x54]) EOF) 2
    = (Received (mkEndpoints (IPv4 x7b x7b x7b x7b) (IPv4 x08 x08 x08 x08) 8080 80) n,
       mkWire (mkConn (skipn n [x47; x45; x54]) EOF) hello true)
    /\ (1 <= n <= 1024)%nat /\ (n <= 3)%nat.
Proof.
  apply (X15_one_read_of_the_payload
           (mkConn (scenario ++ [x47; x45; x54]) EOF)
           (mkEndpoints (IPv4 x7b x7b x7b x7b) (IPv4 x08 x08 x08 x08) 8080 80)
           (mkConn [x47; x45; x54] EOF) 2).
  - vm_compute. reflexivity.
  - discriminate.
Defined.

(** ** The decoded endpoints and the wire form *)

Lemma byteOf_to_N (b : byte) : byteOf (Byte.to_N b) = b.
Proof. unfold byteOf. rewrite Byte.of_to_N. reflexivity. Qed.

Lemma putUint16_pair (b0 b1 : byte) :
  putUint16 (256 * Byte.to_N b0 + Byte.to_N b1) = [b0; b1].
Proof.
  pose proof (to_N_byte b1) as H1. unfold putUint16.
  replace ((256 * Byte.to_N b0 + Byte.to_N b1) / 256) with (Byte.to_N b0).
  2:{ symmetry. rewrite N.mul_comm, N.div_add_l by lia.
      rewrite N.div_small by exact H1. lia. }
  replace ((256 * Byte.to_N b0 + Byte.to_N b1) mod 256) with (Byte.to_N b1).
  2:{ symmetry. rewrite N.add_comm, N.mul_comm, N.Div0.mod_add.
      apply N.mod_small. exact H1. }
  rewrite !byteOf_to_N. reflexivity.
Qed.

(** X16. The decoded endpoints do not record the address family: a
    connection of family IPv4 and a connection of family IPv6 that carries
    the same addresses in IPv4-mapped form (::ffff:a.b.c.d) and the same
    ports decode to the same endpoints. *)
Theorem X16_family_is_not_recorded
        (src dst : list byte) (sport dport : N) (payload : list byte) (c : error) :
  length src = 4%nat -> length dst = 4%nat ->
  exists ep,
    handle (mkConn (encodeIPv4 src dst sport dport ++ payload) c)
    = (GotConnection ep, mkConn payload c)
    /\ handle (mkConn (encodeIPv6 (v4InV6Prefix ++ src) (v4InV6Prefix ++ dst) sport dport
                       ++ payload) c)
       = (GotConnection ep, mkConn payload c).
Proof.
  intros Hs Hd. unfold encodeIPv4, encodeIPv6.
  exists (endpointsIPv4 (src ++ dst ++ putUint16 sport ++ putUint16 dport)). split.
  - rewrite <- app_assoc.
    apply handle_IPv4; try reflexivity.
    + rewrite !length_app, Hs, Hd. reflexivity.
    + rewrite !length_app, Hs, Hd. cbn [putUint16 length]. lia.
  - replace (endpointsIPv4 (src ++ dst ++ putUint16 sport ++ putUint16 dport))
      with (endpointsIPv6 ((v4InV6Prefix ++ src) ++ (v4InV6Prefix ++ dst)
                           ++ putUint16 sport ++ putUint16 dport))
      by (explode src Hs; explode dst Hd; reflexivity).
    rewrite <- (app_assoc (fixedHeader _ _ _ _ _)).
    apply handle_IPv6; try reflexivity.
    + rewrite !length_app, Hs, Hd. reflexivity.
    + rewrite !length_app, Hs, Hd. cbn [putUint16 length v4InV6Prefix]. lia.
Qed.

Lemma X16_family_is_not_recorded_witness :
  exists ep,
    handle (mkConn (encodeIPv4 [x7b; x7b; x7b; x7b] [x08; x08; x08; x08] 8080 80 ++ []) EOF)
    = (GotConnection ep, mkConn [] EOF)
    /\ handle (mkConn (encodeIPv6 (v4InV6Prefix ++ [x7b; x7b; x7b; x7b])
                                  (v4InV6Prefix ++ [x08; x08; x08; x08]) 8080 80 ++ []) EOF)
       = (GotConnection ep, mkConn [] EOF).
Proof.
  apply (X16_family_is_not_recorded [x7b; x7b; x7b; x7b] [x08; x08; x08; x08] 8080 80 [] EOF);
    reflexivity.
Defined.

(** X17. Decoding loses nothing of an exact block: behind the header
    [21 11 00 0C], the wire form of the endpoints decoded from a 12-byte
    block is the stream that was read, header and block; likewise behind
    [21 21 00 24] for a 36-byte block. *)
Theorem X17_decode_then_encode :
  (forall (b payload : list byte) (c : error) (ep : Endpoints) (raw' : Conn),
      length b = 12%nat ->
      handle (mkConn (fixedHeader ppv2Signature x21 x11 x00 x0c ++ b ++ payload) c)
      = (GotConnection ep, raw') ->
      encodeIPv4 (To4 (srcIP ep)) (To4 (dstIP ep)) (srcPort ep) (dstPort ep)
      = fixedHeader ppv2Signature x21 x11 x00 x0c ++ b)
  /\ (forall (b payload : list byte) (c : error) (ep : Endpoints) (raw' : Conn),
      length b = 36%nat ->
      handle (mkConn (fixedHeader ppv2Signature x21 x21 x00 x24 ++ b ++ payload) c)
      = (GotConnection ep, raw') ->
      encodeIPv6 (srcIP ep) (dstIP ep) (srcPort ep) (dstPort ep)
      = fixedHeader ppv2Signature x21 x21 x00 x24 ++ b).
Proof.
  split; intros b payload c ep raw' Hb H.
  - rewrite handle_IPv4 in H by (try reflexivity; rewrite Hb; auto).
    injection H as <- _. unfold encodeIPv4. f_equal.
    explode b Hb.
    cbn [endpointsIPv4 srcIP dstIP srcPort dstPort firstn skipn].
    rewrite !To4_IPv4 by reflexivity.
    unfold u16At. cbn [nth]. rewrite !putUint16_pair. reflexivity.
  - rewrite handle_IPv6 in H by (try reflexivity; rewrite Hb; auto).
    injection H as <- _. unfold encodeIPv6. f_equal.
    explode b Hb.
    cbn [endpointsIPv6 srcIP dstIP srcPort dstPort firstn skipn].
    unfold u16At. cbn [nth]. rewrite !putUint16_pair. reflexivity.
Qed.

Lemma X17_decode_then_encode_witness :
  encodeIPv4 (To4 (IPv4 x7b x7b x7b x7b)) (To4 (IPv4 x08 x08 x08 x08)) 8080 80
  = fixedHeader ppv2Signature x21 x11 x00 x0c
    ++ [x7b; x7b; x7b; x7b; x08; x08; x08; x08; x1f; x90; x00; x50].
Proof.
  apply (proj1 X17_decode_then_encode
           [x7b; x7b; x7b; x7b; x08; x08; x08; x08; x1f; x90; x00; x50] [] EOF
           (mkEndpoints (IPv4 x7b x7b x7b x7b) (IPv4 x08 x08 x08 x08) 8080 80)
           (mkConn [] EOF)).
  - reflexivity.
  - vm_compute. reflexivity.
Defined.
